(** * Layer normalization orchestration (aten/src/ATen/native/layer_norm.cpp)

    A shallow embedding of the forward, backward and batch-norm-fallback
    orchestration of [layer_norm.cpp].  Tensors carry their shape, a
    contiguity flag, a device tag and a flat buffer; the orchestration is
    written in a small error-and-trace monad so that the order of
    allocations, reshapes and kernel invocations is observable. *)

From Stdlib Require Import List ZArith Lia Bool.
Import ListNotations.
Open Scope Z_scope.

(** ** Data model *)

Inductive DeviceType := CPU | CUDA.

(** One element of a buffer: either never written ([at::empty]) or holding a
    value, kept as its bit pattern.  The all-zero pattern is the value 0 of
    every floating-point element type, so [zeros_like] writes [Bits 0]. *)
Inductive cell :=
| Uninit
| Bits (b : Z).

Record TensorImpl := mkTensor {
  sizes : list Z;
  is_contiguous : bool;
  device : DeviceType;
  data : list cell
}.

(** A C++ [Tensor] is a handle that may be undefined ([Tensor()]); the
    undefined handle is the "absent" sentinel of the backward outputs. *)
Definition Tensor := option TensorImpl.

Definition defined (t : Tensor) : bool :=
  match t with Some _ => true | None => false end.

(** [double] arguments ([eps]) are only handed through to the kernels; they
    are carried as their 64-bit pattern. *)
Definition double := Z.

(** Modelled from the spec: [c10::multiply_integers], the product of a
    range of dimension sizes (section 4.1).  It is computed in [int64_t];
    signed overflow is undefined there, so the model covers shapes whose
    products fit. *)
Definition multiply_integers (l : list Z) : Z := fold_right Z.mul 1 l.

Definition numel (x : TensorImpl) : Z := multiply_integers (sizes x).

Definition dim (x : TensorImpl) : nat := length (sizes x).

Fixpoint shape_eqb (a b : list Z) : bool :=
  match a, b with
  | [], [] => true
  | x :: a', y :: b' => (x =? y) && shape_eqb a' b'
  | _, _ => false
  end.

(** ** Errors, events and the orchestration monad *)

Inductive Error :=
| InvalidShape          (* raised by _check_layer_norm_inputs *)
| UndefinedTensor       (* metadata of an undefined handle was requested *)
| NegativeDimension     (* at::empty with a negative size *)
| InvalidView.          (* view: sizes incompatible, or -1 not inferable *)

Inductive AllocKind :=
| AllocEmpty            (* at::empty *)
| AllocEmptyLike        (* at::native::empty_like *)
| AllocZerosLike        (* at::native::zeros_like *)
| AllocContiguousCopy.  (* the clone made by expect_contiguous *)

Inductive Event :=
| EvAlloc (k : AllocKind) (shape : list Z)
| EvView (shape : list Z)
| EvLayerNormKernel (M N : Z)
| EvLayerNormBackwardKernel (M N : Z) (dX dgamma dbeta : bool)
| EvBatchNorm (shape : list Z) (weight bias : bool) (training : bool)
| EvAddcmul
| EvMul
| EvAdd.

Definition Trace := list Event.

Inductive result (A : Type) :=
| Ok (a : A)
| Raise (e : Error).
Arguments Ok {A} a.
Arguments Raise {A} e.

(** A computation threads the trace of what has happened so far and either
    returns a value or raises; the trace survives a raise. *)
Definition Eff (A : Type) := Trace -> result A * Trace.

Definition ret {A} (a : A) : Eff A := fun tr => (Ok a, tr).

Definition raise {A} (e : Error) : Eff A := fun tr => (Raise e, tr).

Definition bind {A B} (m : Eff A) (f : A -> Eff B) : Eff B :=
  fun tr =>
    match m tr with
    | (Ok a, tr') => f a tr'
    | (Raise e, tr') => (Raise e, tr')
    end.

Definition emit (e : Event) : Eff unit := fun tr => (Ok tt, tr ++ [e]).

Definition lift {A} (r : result A) : Eff A := fun tr => (r, tr).

Definition run {A} (m : Eff A) : result A * Trace := m [].

Declare Scope eff_scope.
Delimit Scope eff_scope with eff.
Notation "x <- m ;; k" := (bind m (fun x => k))
  (at level 61, m at next level, right associativity) : eff_scope.
Notation "' pat <- m ;; k" := (bind m (fun x => match x with pat => k end))
  (at level 61, pat pattern, m at next level, right associativity) : eff_scope.
Notation "m ;; k" := (bind m (fun _ => k))
  (at level 61, right associativity) : eff_scope.
Open Scope eff_scope.

Definition is_alloc (e : Event) : bool :=
  match e with EvAlloc _ _ => true | _ => false end.

Definition is_kernel (e : Event) : bool :=
  match e with
  | EvLayerNormKernel _ _ => true
  | EvLayerNormBackwardKernel _ _ _ _ _ => true
  | EvBatchNorm _ _ _ _ => true
  | _ => false
  end.

Definition is_forward_kernel (e : Event) : bool :=
  match e with EvLayerNormKernel _ _ => true | _ => false end.

Definition is_backward_kernel (e : Event) : bool :=
  match e with EvLayerNormBackwardKernel _ _ _ _ _ => true | _ => false end.

Definition is_batch_norm (e : Event) : bool :=
  match e with EvBatchNorm _ _ _ _ => true | _ => false end.

(** ** External collaborators

    The numeric kernels behind [DEFINE_DISPATCH], the batch-norm operator
    and the elementwise tensor operations are not part of this file.  The
    kernels receive the output buffers by pointer; here they map the three
    buffers before the call to the three buffers after it. *)
Class Collaborators := {
  LayerNormKernel :
    DeviceType -> Tensor -> Tensor -> Tensor -> Z -> Z -> double ->
    Tensor * Tensor * Tensor -> Tensor * Tensor * Tensor;
  LayerNormBackwardKernel :
    DeviceType -> Tensor -> Tensor -> Tensor -> Tensor -> Tensor -> Z -> Z ->
    Tensor * Tensor * Tensor -> Tensor * Tensor * Tensor;
  native_batch_norm :
    Tensor -> Tensor -> Tensor -> Tensor -> Tensor -> bool -> Z -> double ->
    Tensor * Tensor * Tensor;
  addcmul : Tensor -> Tensor -> Tensor -> Z -> Tensor;
  mul : Tensor -> Tensor -> Tensor;
  add : Tensor -> Tensor -> Tensor;
  (** whether the strides of a non-contiguous tensor admit a view *)
  stride_viewable : TensorImpl -> list Z -> bool
}.

(** Two handles agree on everything but the buffer contents. *)
Definition same_meta (a b : Tensor) : Prop :=
  match a, b with
  | None, None => True
  | Some x, Some y =>
      sizes x = sizes y /\ is_contiguous x = is_contiguous y /\
      device x = device y
  | _, _ => False
  end.

Definition same_meta3 (a b : Tensor * Tensor * Tensor) : Prop :=
  same_meta (fst (fst a)) (fst (fst b)) /\
  same_meta (snd (fst a)) (snd (fst b)) /\
  same_meta (snd a) (snd b).

(** The kernel contract of the interface: the kernels fill the buffers they
    are given in place; they neither create, drop nor reshape a buffer. *)
Class KernelContract (K : Collaborators) : Prop := {
  forward_kernel_in_place :
    forall d X g b M N eps bufs,
      same_meta3 bufs (LayerNormKernel d X g b M N eps bufs);
  backward_kernel_in_place :
    forall d dY X mean rstd g M N bufs,
      same_meta3 bufs (LayerNormBackwardKernel d dY X mean rstd g M N bufs)
}.

(** ** Tensor library helpers used by the orchestration *)

(** Modelled from the spec: [at::borrow_from_optional_tensor], not in this
    file.  Scale and bias are optional arrays (section 3); an absent
    optional becomes the undefined handle. *)
Definition borrow_from_optional_tensor (o : option Tensor) : Tensor :=
  match o with
  | Some t => t
  | None => None
  end.

(** Modelled from the spec: [Tensor::expect_contiguous], not in this file.
    Inputs are made contiguous by copy on demand (section 3): the tensor
    itself when it is contiguous (the undefined handle reports contiguous),
    a freshly allocated contiguous clone otherwise. *)
Definition expect_contiguous (t : Tensor) : Eff Tensor :=
  match t with
  | None => ret None
  | Some x =>
      if is_contiguous x then ret (Some x)
      else
        emit (EvAlloc AllocContiguousCopy (sizes x)) ;;
        ret (Some (mkTensor (sizes x) true (device x) (data x)))
  end.

(** Modelled from the spec: [at::empty({M}, X->options())], not in this
    file.  A fresh uninitialised buffer of length [M] with the element type
    and device of the input (section 4.3); asking an undefined handle for
    its options raises, and so does a negative size. *)
Definition empty (M : Z) (X : Tensor) : Eff Tensor :=
  match X with
  | None => raise UndefinedTensor
  | Some x =>
      if M <? 0 then raise NegativeDimension
      else
        emit (EvAlloc AllocEmpty [M]) ;;
        ret (Some (mkTensor [M] true (device x) (repeat Uninit (Z.to_nat M))))
  end.

(** Modelled from the spec: [at::native::empty_like(self, ...,
    MemoryFormat::Contiguous)], not in this file.  A fresh uninitialised
    contiguous buffer of the shape of [self] (section 4.4); asking an
    undefined handle for its options raises. *)
Definition empty_like (self : Tensor) : Eff Tensor :=
  match self with
  | None => raise UndefinedTensor
  | Some x =>
      emit (EvAlloc AllocEmptyLike (sizes x)) ;;
      ret (Some (mkTensor (sizes x) true (device x)
                   (repeat Uninit (Z.to_nat (numel x)))))
  end.

(** Modelled from the spec: [at::native::zeros_like(self, ...,
    MemoryFormat::Contiguous)], not in this file.  As [empty_like], filled
    with zeros (section 4.4). *)
Definition zeros_like (self : Tensor) : Eff Tensor :=
  match self with
  | None => raise UndefinedTensor
  | Some x =>
      emit (EvAlloc AllocZerosLike (sizes x)) ;;
      ret (Some (mkTensor (sizes x) true (device x)
                   (repeat (Bits 0) (Z.to_nat (numel x)))))
  end.

(** Modelled from the spec: the size inference of [Tensor::view], which is
    not in this file.  A view is a metadata-only reshape that needs the
    element counts to agree (section 4.2); a single [-1] entry stands for
    the dimension to infer, the total element count divided by the product
    of the other entries, which is undefined when that product is 0. *)
Definition infer_size (shape : list Z) (n : Z) : result (list Z) :=
  let others := filter (fun d => negb (d =? -1)) shape in
  let newsize := multiply_integers others in
  if existsb (fun d => d <? -1) shape then Raise InvalidView
  else
    match (length shape - length others)%nat with
    | O => if n =? newsize then Ok shape else Raise InvalidView
    | S O =>
        if newsize =? 0 then Raise InvalidView
        else if (0 <? newsize) && (n mod newsize =? 0)
        then Ok (map (fun d => if d =? -1 then n / newsize else d) shape)
        else Raise InvalidView
    | _ => Raise InvalidView
    end.

(** Modelled from the spec: [Tensor::view], not in this file.  It shares
    the buffer under the inferred sizes; a contiguous tensor can always be
    viewed, for another one the strides decide. *)
Definition view `{Collaborators} (self : Tensor) (shape : list Z) : Eff Tensor :=
  emit (EvView shape) ;;
  match self with
  | None => raise UndefinedTensor
  | Some x =>
      s <- lift (infer_size shape (numel x)) ;;
      if is_contiguous x || stride_viewable x s
      then ret (Some (mkTensor s (is_contiguous x) (device x) (data x)))
      else raise InvalidView
  end.

(** Modelled from the spec: [_check_layer_norm_inputs] of layer_norm.h, the
    ShapeResolver of section 4.1.  It checks that a present scale and a
    present bias have exactly the normalized shape and that the normalized
    shape is a trailing suffix of the input shape, and returns
    [M = product(input.shape[0:axis])] and [N = product(input.shape[axis:])]
    for [axis = input.rank - len(normalized_shape)]; it raises
    [InvalidShape] otherwise and has no side effect. *)
Definition _check_layer_norm_inputs
    (input : Tensor) (normalized_shape : list Z) (weight bias : Tensor)
    : result (Z * Z) :=
  match input with
  | None => Raise UndefinedTensor
  | Some x =>
      let input_shape := sizes x in
      let input_ndim := length input_shape in
      let normalized_ndim := length normalized_shape in
      let weight_ok :=
        match weight with
        | Some w => shape_eqb (sizes w) normalized_shape
        | None => true
        end in
      let bias_ok :=
        match bias with
        | Some b => shape_eqb (sizes b) normalized_shape
        | None => true
        end in
      if weight_ok && bias_ok && (normalized_ndim <=? input_ndim)%nat &&
         shape_eqb (skipn (input_ndim - normalized_ndim) input_shape)
                   normalized_shape
      then
        let axis := (input_ndim - normalized_ndim)%nat in
        Ok (multiply_integers (firstn axis input_shape),
            multiply_integers (skipn axis input_shape))
      else Raise InvalidShape
  end.

(** ** The forward path *)

Section Forward.
Context `{K : Collaborators}.

(** The statistic shape built by the two loops of [layer_norm_impl_out]:
    [input_shape[idx]] for [idx] in [irange(axis)], then a 1 for every
    [idx] in [irange(axis, input.dim())]. *)
Definition stat_shape_of (input_shape : list Z) (axis ndim : nat) : list Z :=
  map (fun idx => nth idx input_shape 0) (seq 0 axis) ++
  map (fun _ => 1) (seq axis (ndim - axis)).

(** [layer_norm_impl_out]; [out], [mean] and [rstd] are passed by reference
    and come back as the result.  [axis] is a [size_t]; every caller has
    validated that the normalized rank does not exceed the input rank. *)
Definition layer_norm_impl_out
    (out mean rstd : Tensor) (input : Tensor) (normalized_shape : list Z)
    (gamma beta : Tensor) (eps : double) (M N : Z)
    : Eff (Tensor * Tensor * Tensor) :=
  if M <=? 0 then ret (out, mean, rstd)
  else
    match input with
    | None => raise UndefinedTensor
    | Some x =>
        emit (EvLayerNormKernel M N) ;;
        let '(out, mean, rstd) :=
          LayerNormKernel (device x) input gamma beta M N eps
                          (out, mean, rstd) in
        let input_shape := sizes x in
        let axis := (dim x - length normalized_shape)%nat in
        let stat_shape := stat_shape_of input_shape axis (dim x) in
        mean <- view mean stat_shape ;;
        rstd <- view rstd stat_shape ;;
        ret (out, mean, rstd)
    end.

(** [layer_init]. *)
Definition layer_init
    (input : Tensor) (normalized_shape : list Z)
    (weight_opt bias_opt : option Tensor)
    : Eff (Tensor * Z * Z * Tensor * Tensor * Tensor * Tensor) :=
  let weight := borrow_from_optional_tensor weight_opt in
  let bias := borrow_from_optional_tensor bias_opt in
  X <- expect_contiguous input ;;
  M_N <- lift (_check_layer_norm_inputs input normalized_shape weight bias) ;;
  let M := fst M_N in
  let N := snd M_N in
  gamma <- expect_contiguous weight ;;
  beta <- expect_contiguous bias ;;
  mean <- empty M X ;;
  rstd <- empty M X ;;
  ret (X, M, N, gamma, beta, mean, rstd).

(** [layer_norm_new_out]. *)
Definition layer_norm_new_out
    (input : Tensor) (normalized_shape : list Z)
    (weight_opt bias_opt : option Tensor) (eps : double) (out : Tensor)
    : Eff Tensor :=
  '(X, M, N, gamma, beta, mean, rstd) <-
    layer_init input normalized_shape weight_opt bias_opt ;;
  '(out, _, _) <-
    layer_norm_impl_out out mean rstd X normalized_shape gamma beta eps M N ;;
  ret out.

(** [_layer_norm], the native forward operation. *)
Definition _layer_norm
    (input : Tensor) (normalized_shape : list Z)
    (weight_opt bias_opt : option Tensor) (eps : double)
    : Eff (Tensor * Tensor * Tensor) :=
  '(X, M, N, gamma, beta, mean, rstd) <-
    layer_init input normalized_shape weight_opt bias_opt ;;
  Y <- empty_like X ;;
  layer_norm_impl_out Y mean rstd X normalized_shape gamma beta eps M N.

End Forward.

(** ** The backward path *)

(** [std::array<bool, 3> grad_input_mask]. *)
Definition grad_mask := (bool * bool * bool)%type.

Definition mask_at (m : grad_mask) (i : nat) : bool :=
  match i with
  | O => fst (fst m)
  | S O => snd (fst m)
  | _ => snd m
  end.

Section Backward.
Context `{K : Collaborators}.

(** [layer_norm_backward]. *)
Definition layer_norm_backward
    (dY input : Tensor) (normalized_shape : list Z) (mean rstd : Tensor)
    (weight_opt bias_opt : option Tensor) (grad_input_mask : grad_mask)
    : Eff (Tensor * Tensor * Tensor) :=
  let weight := borrow_from_optional_tensor weight_opt in
  let bias := borrow_from_optional_tensor bias_opt in
  M_N <- lift (_check_layer_norm_inputs input normalized_shape weight bias) ;;
  let M := fst M_N in
  let N := snd M_N in
  X <- expect_contiguous input ;;
  gamma <- expect_contiguous weight ;;
  beta <- expect_contiguous bias ;;
  dX <- (if mask_at grad_input_mask 0 then empty_like X else ret None) ;;
  dgamma <- (if mask_at grad_input_mask 1
             then (if 0 <? M then empty_like gamma else zeros_like gamma)
             else ret None) ;;
  dbeta <- (if mask_at grad_input_mask 2
            then (if 0 <? M then empty_like beta else zeros_like beta)
            else ret None) ;;
  if 0 <? M then
    match dY with
    | None => raise UndefinedTensor
    | Some dy =>
        emit (EvLayerNormBackwardKernel M N
                (defined dX) (defined dgamma) (defined dbeta)) ;;
        ret (LayerNormBackwardKernel (device dy) dY X mean rstd gamma M N
               (dX, dgamma, dbeta))
    end
  else ret (dX, dgamma, dbeta).

End Backward.

(** ** The batch-norm fallback path *)

Section Fallback.
Context `{K : Collaborators}.

Definition sizes_of (t : Tensor) : list Z :=
  match t with
  | Some x => sizes x
  | None => []
  end.

(** The affine step of [math_native_layer_norm] (its three-way branch). *)
Definition apply_affine (out weight bias : Tensor) : Eff Tensor :=
  if defined weight && defined bias then
    emit EvAddcmul ;; ret (addcmul bias out weight 1)
  else if defined weight then
    emit EvMul ;; ret (mul out weight)
  else if defined bias then
    emit EvAdd ;; ret (add out bias)
  else ret out.

(** [math_native_layer_norm]. *)
Definition math_native_layer_norm
    (input : Tensor) (normalized_shape : list Z)
    (weight_opt bias_opt : option Tensor) (eps : double)
    : Eff (Tensor * Tensor * Tensor) :=
  let weight := borrow_from_optional_tensor weight_opt in
  let bias := borrow_from_optional_tensor bias_opt in
  M_N <- lift (_check_layer_norm_inputs input normalized_shape weight bias) ;;
  let M := fst M_N in
  X <- expect_contiguous input ;;
  gamma <- expect_contiguous weight ;;
  let input_shape := sizes_of input in
  let input_ndim := length input_shape in
  let normalized_ndim := length normalized_shape in
  let axis := (input_ndim - normalized_ndim)%nat in
  input_reshaped <- view input [1; M; -1] ;;
  emit (EvBatchNorm (sizes_of input_reshaped) false false true) ;;
  let outputs :=
    native_batch_norm input_reshaped None None None None true 0 eps in
  let out := fst (fst outputs) in
  out <- view out input_shape ;;
  out <- apply_affine out weight bias ;;
  let mean := snd (fst outputs) in
  let rstd := snd outputs in
  let stat_shape := stat_shape_of input_shape axis input_ndim in
  mean <- view mean stat_shape ;;
  rstd <- view rstd stat_shape ;;
  ret (out, mean, rstd).

End Fallback.

(** ** The public entry points *)

Section EntryPoints.

(** [at::native_layer_norm] is the dispatched operator; which implementation
    it reaches is decided by the operator registration, outside this file. *)
Variable native_layer_norm :
  Tensor -> list Z -> option Tensor -> option Tensor -> double ->
  Eff (Tensor * Tensor * Tensor).

Definition get0 (r : Tensor * Tensor * Tensor) : Tensor := fst (fst r).

(** [layer_norm_new]. *)
Definition layer_norm_new
    (input : Tensor) (normalized_shape : list Z)
    (weight_opt bias_opt : option Tensor) (eps : double) : Eff Tensor :=
  r <- native_layer_norm input normalized_shape weight_opt bias_opt eps ;;
  ret (get0 r).

(** [layer_norm]; the last argument is the unnamed, deprecated
    [cudnn_enable]. *)
Definition layer_norm
    (input : Tensor) (normalized_shape : list Z)
    (weight_opt bias_opt : option Tensor) (eps : double) (_ : bool)
    : Eff Tensor :=
  r <- native_layer_norm input normalized_shape weight_opt bias_opt eps ;;
  ret (get0 r).

End EntryPoints.

(** ** A reference instance of the collaborators

    Kernels that write the zero pattern into every buffer they are handed,
    and a batch norm that returns buffers of the shapes its contract
    promises.  It is used to run the orchestration on concrete inputs. *)

Definition fill_zero (t : Tensor) : Tensor :=
  match t with
  | Some x =>
      Some (mkTensor (sizes x) (is_contiguous x) (device x)
              (map (fun _ => Bits 0) (data x)))
  | None => None
  end.

Definition fill_zero3 (b : Tensor * Tensor * Tensor) : Tensor * Tensor * Tensor :=
  (fill_zero (fst (fst b)), fill_zero (snd (fst b)), fill_zero (snd b)).

Definition zeros (shape : list Z) (d : DeviceType) : Tensor :=
  Some (mkTensor shape true d
          (repeat (Bits 0) (Z.to_nat (multiply_integers shape)))).

Definition ref_batch_norm (input : Tensor) : Tensor * Tensor * Tensor :=
  match input with
  | Some x =>
      let C := nth 1 (sizes x) 0 in
      (zeros (sizes x) (device x), zeros [C] (device x), zeros [C] (device x))
  | None => (None, None, None)
  end.

Definition ref_collaborators : Collaborators := {|
  LayerNormKernel := fun _ _ _ _ _ _ _ bufs => fill_zero3 bufs;
  LayerNormBackwardKernel := fun _ _ _ _ _ _ _ _ bufs => fill_zero3 bufs;
  native_batch_norm := fun input _ _ _ _ _ _ _ => ref_batch_norm input;
  addcmul := fun self t1 t2 _ => fill_zero t1;
  mul := fun a _ => fill_zero a;
  add := fun a _ => fill_zero a;
  stride_viewable := fun _ _ => false
|}.

Definition tensor (shape : list Z) (contig : bool) : Tensor :=
  Some (mkTensor shape contig CPU
          (repeat (Bits 1) (Z.to_nat (multiply_integers shape)))).

(** ** Vocabulary of the statements *)

(** Dimension sizes of a real tensor are never negative. *)
Definition wf_shape (s : list Z) : bool := forallb (fun d => 0 <=? d) s.

(** The split axis of section 4.1. *)
Definition axis_of (input_shape normalized_shape : list Z) : nat :=
  (length input_shape - length normalized_shape)%nat.

(** The shape the StatisticBroadcaster promises:
    [input.shape[0:axis] + [1] * (input.rank - axis)]. *)
Definition broadcast_stat_shape (input_shape normalized_shape : list Z) : list Z :=
  let axis := axis_of input_shape normalized_shape in
  firstn axis input_shape ++ repeat 1 (length input_shape - axis).

(** What [expect_contiguous] hands back, and the allocation it makes. *)
Definition as_contiguous (t : Tensor) : Tensor :=
  match t with
  | Some x => Some (mkTensor (sizes x) true (device x) (data x))
  | None => None
  end.

Definition copy_events (t : Tensor) : Trace :=
  match t with
  | Some x =>
      if is_contiguous x then []
      else [EvAlloc AllocContiguousCopy (sizes x)]
  | None => []
  end.

(** The flat statistic buffer [at::empty({M}, X->options())]. *)
Definition flat_stat (M : Z) (x : TensorImpl) : Tensor :=
  Some (mkTensor [M] true (device x) (repeat Uninit (Z.to_nat M))).

(** The events of [layer_init] once validation has passed. *)
Definition layer_init_events (input weight bias : Tensor) (M : Z) : Trace :=
  copy_events input ++ copy_events weight ++ copy_events bias ++
  [EvAlloc AllocEmpty [M]; EvAlloc AllocEmpty [M]].

(** The claim as the specification states it, at one call of the forward
    operation: whenever validation passes, the call returns statistics of
    the broadcasting shape. *)
Definition stat_shape_claim `{K : Collaborators}
    (input : Tensor) (ns : list Z) (weight_opt bias_opt : option Tensor)
    (eps : double) : Prop :=
  forall M N,
    _check_layer_norm_inputs input ns
      (borrow_from_optional_tensor weight_opt)
      (borrow_from_optional_tensor bias_opt) = Ok (M, N) ->
    exists Y mean rstd tr,
      run (_layer_norm input ns weight_opt bias_opt eps) =
        (Ok (Y, mean, rstd), tr) /\
      sizes_of mean = broadcast_stat_shape (sizes_of input) ns /\
      sizes_of rstd = broadcast_stat_shape (sizes_of input) ns.

(** The rejection claim as the specification states it, at one call of the
    forward operation: when validation fails, [InvalidShape] is raised
    with no allocation and no kernel invocation before it. *)
Definition early_rejection_claim `{K : Collaborators}
    (input : Tensor) (ns : list Z) (weight_opt bias_opt : option Tensor)
    (eps : double) : Prop :=
  _check_layer_norm_inputs input ns
    (borrow_from_optional_tensor weight_opt)
    (borrow_from_optional_tensor bias_opt) = Raise InvalidShape ->
  exists tr,
    run (_layer_norm input ns weight_opt bias_opt eps) =
      (Raise InvalidShape, tr) /\
    filter is_alloc tr = [] /\ filter is_kernel tr = [].

(** The zero-filled buffer [zeros_like] returns for a defined tensor. *)
Definition zeros_of (t : Tensor) : Tensor :=
  match t with
  | Some w => zeros (sizes w) (device w)
  | None => None
  end.

(** The allocation event of a gradient buffer, when it is requested. *)
Definition requested (want : bool) (k : AllocKind) (like : Tensor) : Trace :=
  if want then [EvAlloc k (sizes_of like)] else [].

(** The gating claim as the specification states it, at one backward call:
    the backward kernel is invoked only when some mask flag is set. *)
Definition kernel_gated_by_mask_claim `{K : Collaborators}
    (dY input : Tensor) (ns : list Z) (mean rstd : Tensor)
    (weight_opt bias_opt : option Tensor) (mask : grad_mask) : Prop :=
  filter is_backward_kernel
    (snd (run (layer_norm_backward dY input ns mean rstd
                 weight_opt bias_opt mask))) <> [] ->
  mask_at mask 0 || mask_at mask 1 || mask_at mask 2 = true.

Definition is_affine_op (e : Event) : bool :=
  match e with
  | EvAddcmul | EvMul | EvAdd => true
  | _ => false
  end.

(** The events of the fallback path up to and including the reshape of the
    batch-norm output back to the input shape. *)
Definition fallback_prefix (input weight : Tensor) (M N : Z) : Trace :=
  copy_events input ++ copy_events weight ++
  [EvView [1; M; -1]; EvBatchNorm [1; M; N] false false true;
   EvView (sizes_of input)].

(** The single elementwise operation of the affine step, by which of scale
    and bias are present. *)
Definition affine_events (weight bias : Tensor) : Trace :=
  match defined weight, defined bias with
  | true, true => [EvAddcmul]
  | true, false => [EvMul]
  | false, true => [EvAdd]
  | false, false => []
  end.

(** A computation only ever appends to the trace. *)
Definition appends {A} (m : Eff A) : Prop :=
  forall tr, exists evs, snd (m tr) = tr ++ evs.

(** ** Vocabulary of the further properties *)

Definition result_map {A B} (f : A -> B) (r : result A) : result B :=
  match r with
  | Ok a => Ok (f a)
  | Raise e => Raise e
  end.

Definition is_ok {A} (r : result A) : bool :=
  match r with
  | Ok _ => true
  | Raise _ => false
  end.

(** The buffer [empty_like] hands back for a tensor, without the event. *)
Definition fresh_like (t : Tensor) : Tensor :=
  match t with
  | Some x =>
      Some (mkTensor (sizes x) true (device x)
              (repeat Uninit (Z.to_nat (numel x))))
  | None => None
  end.

(** The value a computation returns does not depend on the trace it is
    started with: the trace is only written. *)
Definition oblivious {A} (m : Eff A) : Prop :=
  forall tr1 tr2, fst (m tr1) = fst (m tr2).

(** Every event a computation appends satisfies [P]. *)
Definition emits_only (P : Event -> bool) {A} (m : Eff A) : Prop :=
  forall tr, exists evs, snd (m tr) = tr ++ evs /\ forallb P evs = true.

(** The events the fallback path can produce: contiguity copies, reshapes,
    batch norm and the elementwise operations. *)
Definition fallback_event (e : Event) : bool :=
  match e with
  | EvAlloc AllocContiguousCopy _ => true
  | EvAlloc _ _ => false
  | EvView _ => true
  | EvBatchNorm _ _ _ _ => true
  | EvAddcmul | EvMul | EvAdd => true
  | EvLayerNormKernel _ _ => false
  | EvLayerNormBackwardKernel _ _ _ _ _ => false
  end.

(** The events the backward path can produce: allocations and its kernel. *)
Definition backward_event (e : Event) : bool :=
  match e with
  | EvAlloc _ _ => true
  | EvLayerNormBackwardKernel _ _ _ _ _ => true
  | _ => false
  end.

(** The events the forward path can produce. *)
Definition forward_event (e : Event) : bool :=
  match e with
  | EvAlloc AllocZerosLike _ => false
  | EvAlloc _ _ => true
  | EvView _ => true
  | EvLayerNormKernel _ _ => true
  | _ => false
  end.

(** The shape contract of the batch-norm collaborator on a [{1, C, L}]
    input without affine parameters and running statistics: a contiguous
    output with as many elements as the input and two contiguous
    statistics with [C] elements each. *)
Definition batch_norm_shapes (K : Collaborators) : Prop :=
  forall (x : TensorImpl) (C L : Z) (eps : double),
    sizes x = [1; C; L] ->
    exists o m r,
      native_batch_norm (Some x) None None None None true 0 eps =
        (Some o, Some m, Some r) /\
      numel o = numel x /\ is_contiguous o = true /\
      numel m = C /\ is_contiguous m = true /\
      numel r = C /\ is_contiguous r = true.

(** ** Vocabulary of the numeric equivalence of the two forward paths *)

(** The element arithmetic the numeric contracts are stated in.  Buffers
    hold opaque cells; the operations on them, the mean of a group and its
    inverse standard deviation stay abstract. *)
Record Numerics := mkNumerics {
  eadd : cell -> cell -> cell;
  emul : cell -> cell -> cell;
  esub : cell -> cell -> cell;
  ezero : cell;
  eone : cell;
  group_mean : list cell -> cell;
  group_rstd : double -> list cell -> cell
}.


(** The [i]-th group of [N] consecutive elements of a flat buffer. *)
Definition group (N i : nat) (d : list cell) : list cell :=
  firstn N (skipn (i * N) d).

(** [(x_i[j] - mean[i]) * rstd[i]] at the flat index [k = i * N + j]. *)
Definition normalized (nu : Numerics) (eps : double) (N : nat)
    (d : list cell) (k : nat) : cell :=
  let g := group N (k / N) d in
  emul nu (esub nu (nth k d Uninit) (group_mean nu g)) (group_rstd nu eps g).














(** ** Shapes and products *)

Lemma multiply_integers_app (a b : list Z) :
  multiply_integers (a ++ b) = multiply_integers a * multiply_integers b.
Proof.
  unfold multiply_integers.
  induction a as [|d a IH]; simpl.
  - now destruct (fold_right Z.mul 1 b).
  - rewrite IH. ring.
Qed.

Lemma multiply_integers_ones (n : nat) :
  multiply_integers (repeat 1 n) = 1.
Proof.
  induction n as [|n IH]; [reflexivity|].
  change (multiply_integers (repeat 1 (S n)))
    with (1 * multiply_integers (repeat 1 n)).
  rewrite IH. reflexivity.
Qed.

(** [M * N] is the element count of the input. *)
Lemma multiply_integers_split (axis : nat) (s : list Z) :
  multiply_integers (firstn axis s) * multiply_integers (skipn axis s) =
  multiply_integers s.
Proof.
  rewrite <- multiply_integers_app, firstn_skipn. reflexivity.
Qed.

Lemma shape_eqb_eq (a b : list Z) : shape_eqb a b = true <-> a = b.
Proof.
  revert b. induction a as [|x a IH]; intros [|y b]; simpl;
    try (split; [discriminate | discriminate]); [tauto|].
  rewrite andb_true_iff, Z.eqb_eq, IH.
  split; [intros [-> ->]; reflexivity | intros E; inversion E; auto].
Qed.

Lemma nth_seq_firstn (s : list Z) (k : nat) :
  (k <= length s)%nat ->
  map (fun idx => nth idx s 0) (seq 0 k) = firstn k s.
Proof.
  revert k. induction s as [|d s IH]; intros [|k] Hk; simpl in *;
    try reflexivity; try lia.
  rewrite <- seq_shift, map_map. simpl.
  rewrite IH by lia. reflexivity.
Qed.

Lemma map_const_repeat {A B} (c : B) (l : list A) :
  map (fun _ => c) l = repeat c (length l).
Proof.
  induction l as [|a l IH]; simpl; [reflexivity | now rewrite IH].
Qed.

(** The two loops build exactly the broadcasting shape. *)
Lemma stat_shape_of_broadcast (s ns : list Z) :
  (length ns <= length s)%nat ->
  stat_shape_of s (axis_of s ns) (length s) = broadcast_stat_shape s ns.
Proof.
  intros Hle. unfold stat_shape_of, broadcast_stat_shape.
  rewrite nth_seq_firstn by (unfold axis_of; lia).
  rewrite map_const_repeat, length_seq. reflexivity.
Qed.

Lemma wf_shape_firstn (k : nat) (s : list Z) :
  wf_shape s = true -> wf_shape (firstn k s) = true.
Proof.
  unfold wf_shape. revert k.
  induction s as [|d s IH]; intros [|k] H; simpl in *; try reflexivity.
  apply andb_true_iff in H as [Hd Hs].
  rewrite Hd. simpl. auto.
Qed.

Lemma wf_shape_app (a b : list Z) :
  wf_shape a = true -> wf_shape b = true -> wf_shape (a ++ b) = true.
Proof.
  unfold wf_shape. intros Ha Hb. rewrite forallb_app, Ha, Hb. reflexivity.
Qed.

Lemma wf_shape_ones (n : nat) : wf_shape (repeat 1 n) = true.
Proof. induction n; simpl; auto. Qed.

Lemma wf_shape_broadcast (s ns : list Z) :
  wf_shape s = true -> wf_shape (broadcast_stat_shape s ns) = true.
Proof.
  intros H. unfold broadcast_stat_shape.
  apply wf_shape_app; [apply wf_shape_firstn, H | apply wf_shape_ones].
Qed.

Lemma multiply_integers_broadcast (s ns : list Z) :
  multiply_integers (broadcast_stat_shape s ns) =
  multiply_integers (firstn (axis_of s ns) s).
Proof.
  unfold broadcast_stat_shape.
  rewrite multiply_integers_app, multiply_integers_ones. ring.
Qed.

Lemma wf_shape_nonneg (s : list Z) :
  wf_shape s = true -> 0 <= multiply_integers s.
Proof.
  unfold wf_shape, multiply_integers.
  induction s as [|d s IH]; simpl; intros H; [lia|].
  apply andb_true_iff in H as [Hd Hs].
  apply Z.leb_le in Hd. specialize (IH Hs). nia.
Qed.

Lemma wf_shape_no_infer (s : list Z) :
  wf_shape s = true -> filter (fun d => negb (d =? -1)) s = s.
Proof.
  unfold wf_shape. induction s as [|d s IH]; intros H; [reflexivity|].
  cbn [forallb filter] in *.
  apply andb_true_iff in H as [Hd Hs]. apply Z.leb_le in Hd.
  destruct (Z.eqb_spec d (-1)) as [E|_]; [lia|].
  cbn [negb]. now rewrite IH.
Qed.

Lemma wf_shape_no_invalid (s : list Z) :
  wf_shape s = true -> existsb (fun d => d <? -1) s = false.
Proof.
  unfold wf_shape. induction s as [|d s IH]; intros H; [reflexivity|].
  cbn [forallb existsb] in *.
  apply andb_true_iff in H as [Hd Hs]. apply Z.leb_le in Hd.
  destruct (Z.ltb_spec d (-1)) as [E|_]; [lia|].
  cbn [orb]. auto.
Qed.

(** A shape without [-1] entries is viewable exactly when the element
    counts agree. *)
Lemma infer_size_exact (s : list Z) (n : Z) :
  wf_shape s = true -> multiply_integers s = n -> infer_size s n = Ok s.
Proof.
  intros Hwf Hn. unfold infer_size.
  rewrite (wf_shape_no_infer s Hwf), (wf_shape_no_invalid s Hwf).
  rewrite Nat.sub_diag, Hn, Z.eqb_refl. reflexivity.
Qed.

(** What a successful validation establishes. *)
Lemma check_layer_norm_inputs_ok input ns weight bias M N :
  _check_layer_norm_inputs input ns weight bias = Ok (M, N) ->
  exists x,
    input = Some x /\
    (length ns <= length (sizes x))%nat /\
    skipn (axis_of (sizes x) ns) (sizes x) = ns /\
    M = multiply_integers (firstn (axis_of (sizes x) ns) (sizes x)) /\
    N = multiply_integers (skipn (axis_of (sizes x) ns) (sizes x)).
Proof.
  unfold _check_layer_norm_inputs, axis_of.
  destruct input as [x|]; [|discriminate].
  destruct (_ && _ && _ && _) eqn:E; [|discriminate].
  intros H. inversion H; subst. clear H.
  repeat (apply andb_true_iff in E as [E ?]).
  exists x. repeat split; auto.
  - now apply Nat.leb_le.
  - now apply shape_eqb_eq.
Qed.

Lemma check_M_times_N input ns weight bias M N x :
  _check_layer_norm_inputs input ns weight bias = Ok (M, N) ->
  input = Some x -> M * N = numel x.
Proof.
  intros H Hx. apply check_layer_norm_inputs_ok in H as (y & E & _ & _ & -> & ->).
  rewrite Hx in E. inversion E; subst.
  apply multiply_integers_split.
Qed.

(** ** Running the helpers *)

Lemma expect_contiguous_run (t : Tensor) (tr : Trace) :
  expect_contiguous t tr = (Ok (as_contiguous t), tr ++ copy_events t).
Proof.
  destruct t as [[s [|] d b]|]; simpl; unfold ret, bind, emit; simpl;
    rewrite ?app_nil_r; reflexivity.
Qed.

Lemma view_exact `{K : Collaborators} (x : TensorImpl) (s : list Z) (tr : Trace) :
  is_contiguous x = true -> wf_shape s = true ->
  multiply_integers s = numel x ->
  view (Some x) s tr =
  (Ok (Some (mkTensor s true (device x) (data x))), tr ++ [EvView s]).
Proof.
  intros Hc Hwf Hn. unfold view, bind, emit, lift.
  rewrite (infer_size_exact s (numel x) Hwf Hn), Hc. reflexivity.
Qed.

(** ** The forward path, step by step *)

Section ForwardRuns.
Context `{K : Collaborators}.

Lemma layer_init_run x ns weight_opt bias_opt M N tr :
  _check_layer_norm_inputs (Some x) ns
    (borrow_from_optional_tensor weight_opt)
    (borrow_from_optional_tensor bias_opt) = Ok (M, N) ->
  0 <= M ->
  layer_init (Some x) ns weight_opt bias_opt tr =
  (Ok (as_contiguous (Some x), M, N,
       as_contiguous (borrow_from_optional_tensor weight_opt),
       as_contiguous (borrow_from_optional_tensor bias_opt),
       flat_stat M x, flat_stat M x),
   tr ++ layer_init_events (Some x)
           (borrow_from_optional_tensor weight_opt)
           (borrow_from_optional_tensor bias_opt) M).
Proof.
  intros Hchk HM. unfold layer_init, bind at 1.
  rewrite expect_contiguous_run. unfold bind at 1, lift. rewrite Hchk.
  unfold bind at 1. rewrite expect_contiguous_run.
  unfold bind at 1. rewrite expect_contiguous_run.
  cbn [as_contiguous fst snd]. unfold empty.
  destruct (Z.ltb_spec M 0) as [?|_]; [lia|].
  unfold bind, emit, ret, layer_init_events, flat_stat.
  cbn [device]. rewrite <- !app_assoc. reflexivity.
Qed.

(** When validation fails, [layer_init] raises after the contiguity copy of
    the input, which it makes first. *)
Lemma layer_init_rejects input ns weight_opt bias_opt e tr :
  _check_layer_norm_inputs input ns
    (borrow_from_optional_tensor weight_opt)
    (borrow_from_optional_tensor bias_opt) = Raise e ->
  layer_init input ns weight_opt bias_opt tr =
  (Raise e, tr ++ copy_events input).
Proof.
  intros Hchk. unfold layer_init, bind at 1.
  rewrite expect_contiguous_run. unfold bind at 1, lift. rewrite Hchk.
  reflexivity.
Qed.

Lemma same_meta_flat_stat M x (t : Tensor) :
  same_meta (flat_stat M x) t ->
  exists y, t = Some y /\ sizes y = [M] /\ is_contiguous y = true.
Proof.
  destruct t as [y|]; simpl; [|tauto].
  intros (Hs & Hc & _). exists y. auto.
Qed.

End ForwardRuns.

(** ** C1: the shape of the returned statistics *)

Lemma ref_contract : KernelContract ref_collaborators.
Proof.
  split; intros; destruct bufs as [[[a|] [b0|]] [c|]]; simpl;
    repeat split; auto.
Defined.

(** C1 (as amended): for every valid call of the forward operation with
    [M > 0], and kernels that fill their buffers in place, the call returns
    and the returned mean and rstd both have the shape
    [input.shape[0:axis]] followed by [input.rank - axis] ones. *)
Theorem forward_stat_shape
    (K : Collaborators) (HK : KernelContract K)
    (x : TensorImpl) (ns : list Z) (weight_opt bias_opt : option Tensor)
    (eps : double) (M N : Z) :
  wf_shape (sizes x) = true ->
  _check_layer_norm_inputs (Some x) ns
    (borrow_from_optional_tensor weight_opt)
    (borrow_from_optional_tensor bias_opt) = Ok (M, N) ->
  0 < M ->
  exists Y mean rstd tr,
    run (_layer_norm (Some x) ns weight_opt bias_opt eps) =
      (Ok (Y, Some mean, Some rstd), tr) /\
    sizes mean = broadcast_stat_shape (sizes x) ns /\
    sizes rstd = broadcast_stat_shape (sizes x) ns.
Proof.
  intros Hwf Hchk HM.
  destruct (check_layer_norm_inputs_ok _ _ _ _ _ _ Hchk)
    as (x' & Ex & Hle & _ & HMeq & _).
  inversion Ex; subst x'; clear Ex.
  unfold run, _layer_norm, bind at 1.
  rewrite (layer_init_run _ _ _ _ _ _ _ Hchk) by lia.
  cbn [as_contiguous]. unfold bind at 1, empty_like, bind at 1, emit, ret.
  unfold layer_norm_impl_out.
  destruct (Z.leb_spec M 0) as [?|_]; [lia|].
  unfold bind at 1, emit.
  cbn [device sizes dim].
  match goal with
  | |- context [LayerNormKernel ?d ?X ?g ?b ?m ?n ?e ?bufs] =>
      pose proof (forward_kernel_in_place d X g b m n e bufs) as (_ & Hmean & Hrstd);
      destruct (LayerNormKernel d X g b m n e bufs) as [[Y mean] rstd]
  end.
  cbn [fst snd] in Hmean, Hrstd.
  apply same_meta_flat_stat in Hmean as (mean' & -> & Hms & Hmc).
  apply same_meta_flat_stat in Hrstd as (rstd' & -> & Hrs & Hrc).
  unfold dim. cbn [sizes]. fold (axis_of (sizes x) ns).
  rewrite (stat_shape_of_broadcast _ _ Hle).
  assert (Hprod : forall y, sizes y = [M] ->
            multiply_integers (broadcast_stat_shape (sizes x) ns) = numel y).
  { intros y Hy. unfold numel. rewrite Hy, multiply_integers_broadcast, <- HMeq.
    unfold multiply_integers. simpl. ring. }
  unfold bind at 1.
  rewrite (view_exact mean' _ _ Hmc (wf_shape_broadcast _ ns Hwf) (Hprod _ Hms)).
  unfold bind at 1.
  rewrite (view_exact rstd' _ _ Hrc (wf_shape_broadcast _ ns Hwf) (Hprod _ Hrs)).
  unfold ret. do 4 eexists. split; [reflexivity|]. split; reflexivity.
Qed.

(** The theorem at input shape [2; 3], normalized shape [3], with the
    reference kernels. *)
Lemma forward_stat_shape_witness :
  exists Y mean rstd tr,
    run (_layer_norm (K := ref_collaborators) (tensor [2; 3] true) [3]
           None None 0) = (Ok (Y, Some mean, Some rstd), tr) /\
    sizes mean = [2; 1] /\ sizes rstd = [2; 1].
Proof.
  exact (forward_stat_shape ref_collaborators ref_contract
           (mkTensor [2; 3] true CPU (repeat (Bits 1) 6)) [3] None None 0 2 3
           eq_refl eq_refl eq_refl).
Defined.

(** C1 as stated fails on the degenerate batch: for input shape [0; 3] and
    normalized shape [3] validation passes with [M = 0], and the returned
    statistics keep the flat shape [0] instead of [0; 1]. *)
Lemma forward_stat_shape_degenerate_counterexample :
  _check_layer_norm_inputs (tensor [0; 3] true) [3] None None = Ok (0, 3) /\
  (exists Y mean rstd tr,
     run (_layer_norm (K := ref_collaborators) (tensor [0; 3] true) [3]
            None None 0) = (Ok (Y, mean, rstd), tr) /\
     sizes_of mean = [0] /\ sizes_of rstd = [0]) /\
  broadcast_stat_shape [0; 3] [3] = [0; 1] /\
  ~ stat_shape_claim (K := ref_collaborators) (tensor [0; 3] true) [3]
      None None 0.
Proof.
  split; [reflexivity|]. split.
  - do 4 eexists. split; [reflexivity|]. split; reflexivity.
  - split; [reflexivity|].
    intros Hclaim.
    destruct (Hclaim 0 3 eq_refl) as (Y & mean & rstd & tr & Hrun & Hm & _).
    vm_compute in Hrun. inversion Hrun; subst.
    discriminate Hm.
Qed.

(** ** C6: the degenerate batch on the forward path *)

Lemma copy_events_no_kernel (t : Tensor) : filter is_kernel (copy_events t) = [].
Proof. destruct t as [[s [|] d b]|]; reflexivity. Qed.

Lemma layer_init_events_no_kernel input weight bias M :
  filter is_kernel (layer_init_events input weight bias M) = [].
Proof.
  unfold layer_init_events.
  rewrite !filter_app, !copy_events_no_kernel. reflexivity.
Qed.

(** With non-negative sizes the batch count is never negative. *)
Lemma check_M_nonneg x ns weight bias M N :
  wf_shape (sizes x) = true ->
  _check_layer_norm_inputs (Some x) ns weight bias = Ok (M, N) ->
  0 <= M.
Proof.
  intros Hwf Hchk.
  apply check_layer_norm_inputs_ok in Hchk as (y & E & _ & _ & -> & _).
  inversion E; subst y.
  apply wf_shape_nonneg, wf_shape_firstn, Hwf.
Qed.

(** C6: for every valid forward call with [M <= 0], [layer_norm_impl_out]
    hands its buffers back untouched at once, and the forward operation
    returns without error an input-shaped output with no element and two
    statistics with no element, with no kernel invocation on the way. *)
Theorem forward_degenerate_batch
    (K : Collaborators) (x : TensorImpl) (ns : list Z)
    (weight_opt bias_opt : option Tensor) (eps : double) (M N : Z) :
  wf_shape (sizes x) = true ->
  _check_layer_norm_inputs (Some x) ns
    (borrow_from_optional_tensor weight_opt)
    (borrow_from_optional_tensor bias_opt) = Ok (M, N) ->
  M <= 0 ->
  (forall out mean rstd X gamma beta tr,
     layer_norm_impl_out out mean rstd X ns gamma beta eps M N tr =
       (Ok (out, mean, rstd), tr)) /\
  exists Y mean rstd tr,
    run (_layer_norm (Some x) ns weight_opt bias_opt eps) =
      (Ok (Some Y, Some mean, Some rstd), tr) /\
    sizes Y = sizes x /\ data Y = [] /\
    sizes mean = [0] /\ data mean = [] /\
    sizes rstd = [0] /\ data rstd = [] /\
    filter is_kernel tr = [].
Proof.
  intros Hwf Hchk HM.
  pose proof (check_M_nonneg _ _ _ _ _ _ Hwf Hchk) as HM0.
  assert (M = 0) by lia. subst M.
  pose proof (check_M_times_N _ _ _ _ _ _ x Hchk eq_refl) as Hnumel.
  split.
  - intros. reflexivity.
  - unfold run, _layer_norm, bind at 1.
    rewrite (layer_init_run _ _ _ _ _ _ _ Hchk) by lia.
    cbn [as_contiguous]. unfold bind at 1, empty_like, bind at 1, emit, ret.
    unfold numel at 1. cbn [sizes device]. fold (numel x).
    rewrite <- Hnumel. cbn [Z.mul Z.to_nat repeat].
    unfold layer_norm_impl_out. cbn [Z.leb Z.compare].
    unfold ret, flat_stat.
    do 4 eexists. split; [reflexivity|].
    cbn [sizes data Z.to_nat repeat].
    repeat split.
    rewrite !filter_app, layer_init_events_no_kernel. reflexivity.
Qed.

(** The theorem at input shape [0; 3] and normalized shape [3]. *)
Lemma forward_degenerate_batch_witness :
  exists Y mean rstd tr,
    run (_layer_norm (K := ref_collaborators) (tensor [0; 3] true) [3]
           None None 0) = (Ok (Some Y, Some mean, Some rstd), tr) /\
    sizes Y = [0; 3] /\ data Y = [] /\
    sizes mean = [0] /\ data mean = [] /\
    sizes rstd = [0] /\ data rstd = [] /\
    filter is_kernel tr = [].
Proof.
  exact (proj2 (forward_degenerate_batch ref_collaborators
                  (mkTensor [0; 3] true CPU []) [3] None None 0 0 3
                  eq_refl eq_refl (Z.le_refl 0))).
Defined.

(** ** C3: rejection of invalid shapes on the forward path *)

(** For a contiguous input the rejection does come before anything else. *)
Lemma forward_rejects_contiguous
    (K : Collaborators) (x : TensorImpl) (ns : list Z)
    (weight_opt bias_opt : option Tensor) (eps : double) (e : Error) :
  is_contiguous x = true ->
  _check_layer_norm_inputs (Some x) ns
    (borrow_from_optional_tensor weight_opt)
    (borrow_from_optional_tensor bias_opt) = Raise e ->
  run (_layer_norm (Some x) ns weight_opt bias_opt eps) = (Raise e, []).
Proof.
  intros Hc Hchk. unfold run, _layer_norm, bind.
  rewrite (layer_init_rejects _ _ _ _ _ _ Hchk).
  simpl. rewrite Hc. reflexivity.
Qed.

(** The backward path validates before it touches anything. *)
Lemma backward_rejects_first
    (K : Collaborators) (dY input : Tensor) (ns : list Z) (mean rstd : Tensor)
    (weight_opt bias_opt : option Tensor) (mask : grad_mask) (e : Error) :
  _check_layer_norm_inputs input ns
    (borrow_from_optional_tensor weight_opt)
    (borrow_from_optional_tensor bias_opt) = Raise e ->
  run (layer_norm_backward dY input ns mean rstd weight_opt bias_opt mask) =
    (Raise e, []).
Proof.
  intros Hchk. unfold run, layer_norm_backward, bind, lift.
  rewrite Hchk. reflexivity.
Qed.

(** So does the fallback path. *)
Lemma fallback_rejects_first
    (K : Collaborators) (input : Tensor) (ns : list Z)
    (weight_opt bias_opt : option Tensor) (eps : double) (e : Error) :
  _check_layer_norm_inputs input ns
    (borrow_from_optional_tensor weight_opt)
    (borrow_from_optional_tensor bias_opt) = Raise e ->
  run (math_native_layer_norm input ns weight_opt bias_opt eps) =
    (Raise e, []).
Proof.
  intros Hchk. unfold run, math_native_layer_norm, bind, lift.
  rewrite Hchk. reflexivity.
Qed.

(** C3 at a failing input: a non-contiguous input of shape [2; 3] with
    normalized shape [5] fails validation, and whatever the kernels are the
    forward operation has by then allocated the contiguous copy of the
    input, so the claim does not hold of this call. *)
Theorem forward_copies_before_validation (K : Collaborators) :
  _check_layer_norm_inputs (tensor [2; 3] false) [5] None None =
    Raise InvalidShape /\
  run (_layer_norm (tensor [2; 3] false) [5] None None 0) =
    (Raise InvalidShape, [EvAlloc AllocContiguousCopy [2; 3]]) /\
  ~ early_rejection_claim (tensor [2; 3] false) [5] None None 0.
Proof.
  split; [reflexivity|]. split; [reflexivity|].
  intros Hclaim. destruct (Hclaim eq_refl) as (tr & Hrun & Halloc & _).
  change (run (_layer_norm (tensor [2; 3] false) [5] None None 0))
    with (@Raise (Tensor * Tensor * Tensor) InvalidShape,
          [EvAlloc AllocContiguousCopy [2; 3]]) in Hrun.
  inversion Hrun; subst tr. discriminate Halloc.
Qed.

(** ** The backward path *)

Lemma same_meta_defined (a b : Tensor) : same_meta a b -> defined a = defined b.
Proof. destruct a, b; simpl; tauto. Qed.

Lemma copy_events_no_backward_kernel (t : Tensor) :
  filter is_backward_kernel (copy_events t) = [].
Proof. destruct t as [[s [|] d b]|]; reflexivity. Qed.

Lemma requested_no_backward_kernel want k like :
  filter is_backward_kernel (requested want k like) = [].
Proof. destruct want; reflexivity. Qed.

(** Symbolic execution of [layer_norm_backward] after validation: unfold
    the binds one by one and split on the mask, on which optional tensors
    are present and on the sign of [M]. *)
Ltac backward_cases M mask input weight bias dY :=
  repeat (unfold bind at 1; rewrite expect_contiguous_run);
  destruct mask as [[[|] [|]] [|]]; cbn [mask_at fst snd];
  destruct input as [?x|], weight as [?w|], bias as [?b|];
  destruct (0 <? M) eqn:?HM; destruct dY as [?dy|];
  cbn [as_contiguous empty_like zeros_like];
  unfold bind, emit, ret, raise; cbn [defined].

(** Whenever the backward call returns, the outputs follow the mask. *)
Lemma backward_outputs_follow_mask
    (K : Collaborators) (HK : KernelContract K)
    (dY input : Tensor) (ns : list Z) (mean rstd : Tensor)
    (weight_opt bias_opt : option Tensor) (mask : grad_mask)
    (dX dgamma dbeta : Tensor) (tr : Trace) :
  run (layer_norm_backward dY input ns mean rstd weight_opt bias_opt mask) =
    (Ok (dX, dgamma, dbeta), tr) ->
  defined dX = mask_at mask 0 /\
  defined dgamma = mask_at mask 1 /\
  defined dbeta = mask_at mask 2 /\
  (mask_at mask 0 = false -> dX = None) /\
  (mask_at mask 1 = false -> dgamma = None) /\
  (mask_at mask 2 = false -> dbeta = None).
Proof.
  assert (Hnone : forall t : Tensor, defined t = false -> t = None)
    by (intros [y|]; [discriminate | reflexivity]).
  intros Hrun.
  enough (Hdef : defined dX = mask_at mask 0 /\
                 defined dgamma = mask_at mask 1 /\
                 defined dbeta = mask_at mask 2).
  { destruct Hdef as (H0 & H1 & H2). repeat split; auto;
      intros E; apply Hnone; congruence. }
  revert Hrun. unfold run, layer_norm_backward.
  unfold bind at 1, lift.
  destruct (_check_layer_norm_inputs _ _ _ _) as [[M N]|e]; [|discriminate].
  cbn [fst snd].
  set (weight := borrow_from_optional_tensor weight_opt).
  set (bias := borrow_from_optional_tensor bias_opt).
  clearbody weight bias.
  backward_cases M mask input weight bias dY;
    intros Hrun; inversion Hrun; subst; clear Hrun;
    try (repeat split; reflexivity);
    match goal with
    | H : LayerNormBackwardKernel ?d ?a ?b ?c ?e ?f ?m ?n ?bufs = _ |- _ =>
        let Ha := fresh "Ha" in
        let Hb := fresh "Hb" in
        let Hc := fresh "Hc" in
        pose proof (backward_kernel_in_place d a b c e f m n bufs)
          as (Ha & Hb & Hc);
        rewrite H in Ha, Hb, Hc; cbn [fst snd] in Ha, Hb, Hc;
        apply same_meta_defined in Ha, Hb, Hc;
        cbn [defined] in Ha, Hb, Hc; repeat split; congruence
    end.
Qed.

(** The backward call returns whenever validation passes, the incoming
    gradient is there for the kernel, and a requested scale or bias
    gradient has a scale or bias to be shaped after. *)
Lemma backward_returns
    (K : Collaborators)
    (dY : Tensor) (x : TensorImpl) (ns : list Z) (mean rstd : Tensor)
    (weight_opt bias_opt : option Tensor) (mask : grad_mask) (M N : Z) :
  _check_layer_norm_inputs (Some x) ns
    (borrow_from_optional_tensor weight_opt)
    (borrow_from_optional_tensor bias_opt) = Ok (M, N) ->
  (0 < M -> defined dY = true) ->
  (mask_at mask 1 = true ->
   defined (borrow_from_optional_tensor weight_opt) = true) ->
  (mask_at mask 2 = true ->
   defined (borrow_from_optional_tensor bias_opt) = true) ->
  exists v tr,
    run (layer_norm_backward dY (Some x) ns mean rstd
           weight_opt bias_opt mask) = (Ok v, tr).
Proof.
  intros Hchk HdY Hw Hb. unfold run, layer_norm_backward.
  unfold bind at 1, lift. rewrite Hchk. cbn [fst snd]. clear Hchk.
  set (weight := borrow_from_optional_tensor weight_opt) in *.
  set (bias := borrow_from_optional_tensor bias_opt) in *.
  clearbody weight bias.
  assert (HdY' : (0 <? M) = true -> defined dY = true)
    by (intros E; apply HdY, Z.ltb_lt, E).
  clear HdY.
  repeat (unfold bind at 1; rewrite expect_contiguous_run).
  destruct mask as [[[|] [|]] [|]]; cbn [mask_at fst snd] in *;
  destruct weight as [w|], bias as [b|];
  cbn [defined] in Hw, Hb;
  try (discriminate (Hw eq_refl)); try (discriminate (Hb eq_refl));
  destruct (0 <? M); destruct dY as [dy|];
  cbn [defined] in HdY'; try (discriminate (HdY' eq_refl));
  cbn [as_contiguous empty_like zeros_like];
  unfold bind, emit, ret, raise; do 2 eexists; reflexivity.
Qed.

(** C5: for each of the 8 masks, a valid backward call whose requested
    gradients have something to be shaped after returns, and every
    backward call that returns hands back exactly the gradient outputs
    whose flag is set as defined tensors and each of the others as the
    undefined handle. *)
Theorem backward_mask_fidelity
    (K : Collaborators) (HK : KernelContract K)
    (dY : Tensor) (x : TensorImpl) (ns : list Z) (mean rstd : Tensor)
    (weight_opt bias_opt : option Tensor) (mask : grad_mask) (M N : Z) :
  _check_layer_norm_inputs (Some x) ns
    (borrow_from_optional_tensor weight_opt)
    (borrow_from_optional_tensor bias_opt) = Ok (M, N) ->
  (0 < M -> defined dY = true) ->
  (mask_at mask 1 = true ->
   defined (borrow_from_optional_tensor weight_opt) = true) ->
  (mask_at mask 2 = true ->
   defined (borrow_from_optional_tensor bias_opt) = true) ->
  exists dX dgamma dbeta tr,
    run (layer_norm_backward dY (Some x) ns mean rstd
           weight_opt bias_opt mask) = (Ok (dX, dgamma, dbeta), tr) /\
    defined dX = mask_at mask 0 /\
    defined dgamma = mask_at mask 1 /\
    defined dbeta = mask_at mask 2 /\
    (mask_at mask 0 = false -> dX = None) /\
    (mask_at mask 1 = false -> dgamma = None) /\
    (mask_at mask 2 = false -> dbeta = None).
Proof.
  intros Hchk HdY Hw Hb.
  destruct (backward_returns K dY x ns mean rstd weight_opt bias_opt mask
              M N Hchk HdY Hw Hb) as ([[dX dgamma] dbeta] & tr & Hrun).
  exists dX, dgamma, dbeta, tr. split; [exact Hrun|].
  exact (backward_outputs_follow_mask K HK _ _ _ _ _ _ _ _ _ _ _ _ Hrun).
Qed.

(** The theorem at input shape [2; 3], normalized shape [3], scale and bias
    present, and all three gradients requested. *)
Lemma backward_mask_fidelity_witness :
  exists dX dgamma dbeta tr,
    run (layer_norm_backward (K := ref_collaborators)
           (tensor [2; 3] true) (tensor [2; 3] true) [3] None None
           (Some (tensor [3] true)) (Some (tensor [3] true))
           (true, true, true)) =
      (Ok (dX, dgamma, dbeta), tr) /\
    defined dX = true /\ defined dgamma = true /\ defined dbeta = true /\
    (true = false -> dX = None) /\
    (true = false -> dgamma = None) /\
    (true = false -> dbeta = None).
Proof.
  exact (backward_mask_fidelity ref_collaborators ref_contract
           (tensor [2; 3] true) (mkTensor [2; 3] true CPU (repeat (Bits 1) 6))
           [3] None None (Some (tensor [3] true)) (Some (tensor [3] true))
           (true, true, true) 2 3
           eq_refl (fun _ => eq_refl) (fun _ => eq_refl) (fun _ => eq_refl)).
Defined.

(** ** C4: the degenerate batch on the backward path *)

(** C4: for every valid backward call with [M <= 0] the call returns; a
    requested scale (bias) gradient is a buffer of the shape of the scale
    (bias) holding the zero pattern in every element; a requested input
    gradient is an input-shaped buffer with no element, obtained from
    [empty_like] and not from [zeros_like]; and the backward kernel is not
    invoked. *)
Theorem backward_degenerate_batch
    (K : Collaborators)
    (dY : Tensor) (x : TensorImpl) (ns : list Z) (mean rstd : Tensor)
    (weight_opt bias_opt : option Tensor) (mask : grad_mask) (M N : Z) :
  wf_shape (sizes x) = true ->
  _check_layer_norm_inputs (Some x) ns
    (borrow_from_optional_tensor weight_opt)
    (borrow_from_optional_tensor bias_opt) = Ok (M, N) ->
  M <= 0 ->
  (mask_at mask 1 = true ->
   defined (borrow_from_optional_tensor weight_opt) = true) ->
  (mask_at mask 2 = true ->
   defined (borrow_from_optional_tensor bias_opt) = true) ->
  exists dX dgamma dbeta tr,
    run (layer_norm_backward dY (Some x) ns mean rstd
           weight_opt bias_opt mask) = (Ok (dX, dgamma, dbeta), tr) /\
    dX = (if mask_at mask 0
          then Some (mkTensor (sizes x) true (device x) [])
          else None) /\
    dgamma = (if mask_at mask 1
              then zeros_of (borrow_from_optional_tensor weight_opt)
              else None) /\
    dbeta = (if mask_at mask 2
             then zeros_of (borrow_from_optional_tensor bias_opt)
             else None) /\
    tr = copy_events (Some x) ++
         copy_events (borrow_from_optional_tensor weight_opt) ++
         copy_events (borrow_from_optional_tensor bias_opt) ++
         requested (mask_at mask 0) AllocEmptyLike (Some x) ++
         requested (mask_at mask 1) AllocZerosLike
           (borrow_from_optional_tensor weight_opt) ++
         requested (mask_at mask 2) AllocZerosLike
           (borrow_from_optional_tensor bias_opt) /\
    filter is_backward_kernel tr = [].
Proof.
  set (weight := borrow_from_optional_tensor weight_opt).
  set (bias := borrow_from_optional_tensor bias_opt).
  intros Hwf Hchk HM Hw Hb.
  pose proof (check_M_nonneg _ _ _ _ _ _ Hwf Hchk) as HM0.
  assert (M = 0) by lia. subst M.
  pose proof (check_M_times_N _ _ _ _ _ _ x Hchk eq_refl) as Hnumel.
  assert (Hdata : repeat Uninit
            (Z.to_nat (numel (mkTensor (sizes x) true (device x) (data x)))) = []).
  { unfold numel at 1. cbn [sizes]. fold (numel x). rewrite <- Hnumel.
    reflexivity. }
  unfold run, layer_norm_backward.
  fold weight. fold bias. unfold bind at 1, lift. rewrite Hchk.
  cbn [fst snd]. clear Hchk.
  clearbody weight bias.
  repeat (unfold bind at 1; rewrite expect_contiguous_run).
  destruct mask as [[[|] [|]] [|]]; cbn [mask_at fst snd] in *;
  destruct weight as [w|], bias as [b|];
  cbn [defined] in Hw, Hb;
  try (discriminate (Hw eq_refl)); try (discriminate (Hb eq_refl));
  cbn [Z.ltb Z.compare as_contiguous empty_like zeros_like];
  unfold bind, emit, ret, raise;
  cbn [sizes device]; rewrite ?Hdata;
  do 4 eexists; (split; [reflexivity|]);
  unfold requested, zeros_of, zeros, numel; cbn [sizes_of sizes device];
  rewrite ?app_nil_r, <- ?app_assoc;
  repeat split;
  rewrite ?filter_app, ?copy_events_no_backward_kernel; reflexivity.
Qed.

(** The theorem at input shape [0; 3], normalized shape [3], scale and bias
    present and all three gradients requested. *)
Lemma backward_degenerate_batch_witness :
  exists dX dgamma dbeta tr,
    run (layer_norm_backward (K := ref_collaborators)
           (tensor [0; 3] true) (tensor [0; 3] true) [3] None None
           (Some (tensor [3] true)) (Some (tensor [3] true))
           (true, true, true)) = (Ok (dX, dgamma, dbeta), tr) /\
    dX = Some (mkTensor [0; 3] true CPU []) /\
    dgamma = Some (mkTensor [3] true CPU [Bits 0; Bits 0; Bits 0]) /\
    dbeta = Some (mkTensor [3] true CPU [Bits 0; Bits 0; Bits 0]) /\
    tr = [EvAlloc AllocEmptyLike [0; 3]; EvAlloc AllocZerosLike [3];
          EvAlloc AllocZerosLike [3]] /\
    filter is_backward_kernel tr = [].
Proof.
  exact (backward_degenerate_batch ref_collaborators
           (tensor [0; 3] true) (mkTensor [0; 3] true CPU []) [3] None None
           (Some (tensor [3] true)) (Some (tensor [3] true))
           (true, true, true) 0 3
           eq_refl eq_refl (Z.le_refl 0) (fun _ => eq_refl) (fun _ => eq_refl)).
Defined.

(** ** C2: when the backward kernel is invoked *)

Lemma conditional_copy_no_backward_kernel (c : bool) (s : list Z) :
  filter is_backward_kernel
    (if c then [] else [EvAlloc AllocContiguousCopy s]) = [].
Proof. destruct c; reflexivity. Qed.

(** C2 (as amended): for every backward call that passes validation, the
    backward kernel is never invoked when [M <= 0]; when [M > 0] and the
    call returns, the kernel has been invoked exactly once, whatever the
    mask is, and is handed exactly the requested buffers. *)
Theorem backward_kernel_invocation
    (K : Collaborators)
    (dY input : Tensor) (ns : list Z) (mean rstd : Tensor)
    (weight_opt bias_opt : option Tensor) (mask : grad_mask) (M N : Z)
    (r : result (Tensor * Tensor * Tensor)) (tr : Trace) :
  _check_layer_norm_inputs input ns
    (borrow_from_optional_tensor weight_opt)
    (borrow_from_optional_tensor bias_opt) = Ok (M, N) ->
  run (layer_norm_backward dY input ns mean rstd weight_opt bias_opt mask) =
    (r, tr) ->
  (M <= 0 -> filter is_backward_kernel tr = []) /\
  (0 < M -> forall v, r = Ok v ->
   filter is_backward_kernel tr =
     [EvLayerNormBackwardKernel M N
        (mask_at mask 0) (mask_at mask 1) (mask_at mask 2)]).
Proof.
  intros Hchk. unfold run, layer_norm_backward.
  unfold bind at 1, lift. rewrite Hchk. cbn [fst snd]. clear Hchk.
  set (weight := borrow_from_optional_tensor weight_opt).
  set (bias := borrow_from_optional_tensor bias_opt).
  clearbody weight bias.
  backward_cases M mask input weight bias dY;
    intros Hrun; inversion Hrun; subst r tr; clear Hrun;
    (split;
     [ intros Hle; try (apply Z.ltb_lt in HM; lia)
     | intros Hlt v Hv; try discriminate Hv;
       try (apply Z.ltb_ge in HM; lia) ]);
    rewrite ?filter_app, ?copy_events_no_backward_kernel,
      ?conditional_copy_no_backward_kernel; reflexivity.
Qed.

(** The theorem at input shape [2; 3], normalized shape [3] and the empty
    mask: the kernel is invoked once, with three absent buffers. *)
Lemma backward_kernel_invocation_witness :
  (2 <= 0 ->
   filter is_backward_kernel [EvLayerNormBackwardKernel 2 3 false false false]
     = []) /\
  (0 < 2 -> forall v, Ok (@None TensorImpl, @None TensorImpl, @None TensorImpl) = Ok v ->
   filter is_backward_kernel [EvLayerNormBackwardKernel 2 3 false false false]
     = [EvLayerNormBackwardKernel 2 3 false false false]).
Proof.
  exact (backward_kernel_invocation ref_collaborators
           (tensor [2; 3] true) (tensor [2; 3] true) [3] None None None None
           (false, false, false) 2 3
           (Ok (None, None, None))
           [EvLayerNormBackwardKernel 2 3 false false false]
           eq_refl eq_refl).
Defined.

(** C2 as stated fails: with input shape [2; 3], normalized shape [3] and
    all three mask flags false, [M = 2] and the backward kernel is invoked
    all the same. *)
Lemma backward_kernel_ungated_counterexample :
  _check_layer_norm_inputs (tensor [2; 3] true) [3] None None = Ok (2, 3) /\
  run (layer_norm_backward (K := ref_collaborators)
         (tensor [2; 3] true) (tensor [2; 3] true) [3] None None None None
         (false, false, false)) =
    (Ok (None, None, None),
     [EvLayerNormBackwardKernel 2 3 false false false]) /\
  ~ kernel_gated_by_mask_claim (K := ref_collaborators)
      (tensor [2; 3] true) (tensor [2; 3] true) [3] None None None None
      (false, false, false).
Proof.
  split; [reflexivity|]. split; [reflexivity|].
  intros Hclaim.
  assert (H : false = true) by (apply Hclaim; discriminate).
  discriminate H.
Qed.

(** ** The fallback path *)

Lemma bind_ok_inv {A B} (m : Eff A) (f : A -> Eff B) tr b tr' :
  bind m f tr = (Ok b, tr') ->
  exists a tr1, m tr = (Ok a, tr1) /\ f a tr1 = (Ok b, tr').
Proof.
  unfold bind. destruct (m tr) as [[a|e] tr1]; [|discriminate].
  intros H. exists a, tr1. auto.
Qed.

Lemma appends_ret {A} (a : A) : appends (ret a).
Proof. intros tr. exists []. simpl. now rewrite app_nil_r. Qed.

Lemma appends_raise {A} (e : Error) : appends (@raise A e).
Proof. intros tr. exists []. simpl. now rewrite app_nil_r. Qed.

Lemma appends_lift {A} (r : result A) : appends (lift r).
Proof. intros tr. exists []. simpl. now rewrite app_nil_r. Qed.

Lemma appends_emit (e : Event) : appends (emit e).
Proof. intros tr. exists [e]. reflexivity. Qed.

Lemma appends_bind {A B} (m : Eff A) (f : A -> Eff B) :
  appends m -> (forall a, appends (f a)) -> appends (bind m f).
Proof.
  intros Hm Hf tr. unfold bind.
  destruct (Hm tr) as (evs & E). destruct (m tr) as [[a|e] tr1]; simpl in E.
  - destruct (Hf a tr1) as (evs' & E'). exists (evs ++ evs').
    rewrite E', E, app_assoc. reflexivity.
  - exists evs. exact E.
Qed.

Lemma appends_view `{K : Collaborators} (t : Tensor) (s : list Z) :
  appends (view t s).
Proof.
  unfold view. apply appends_bind; [apply appends_emit|]. intros _.
  destruct t as [x|]; [|apply appends_raise].
  apply appends_bind; [apply appends_lift|]. intros s'.
  destruct (_ || _); [apply appends_ret | apply appends_raise].
Qed.

Lemma appends_apply_affine `{K : Collaborators} (out weight bias : Tensor) :
  appends (apply_affine out weight bias).
Proof.
  unfold apply_affine.
  destruct (defined weight && defined bias);
    [|destruct (defined weight); [|destruct (defined bias)]];
    try (apply appends_bind; [apply appends_emit | intros _]);
    apply appends_ret.
Qed.

(** On a shape without [-1] entries a view that succeeds keeps the shape
    and has matched the element counts. *)
Lemma infer_size_wf_inv (s s' : list Z) (n : Z) :
  wf_shape s = true -> infer_size s n = Ok s' ->
  s' = s /\ multiply_integers s = n.
Proof.
  intros Hwf. unfold infer_size.
  rewrite (wf_shape_no_infer s Hwf), (wf_shape_no_invalid s Hwf), Nat.sub_diag.
  destruct (Z.eqb_spec n (multiply_integers s)) as [->|_]; [|discriminate].
  intros H. inversion H. split; reflexivity.
Qed.

Lemma view_ok_inv `{K : Collaborators} (t t' : Tensor) (s : list Z) tr tr' :
  wf_shape s = true ->
  view t s tr = (Ok t', tr') ->
  exists y,
    t = Some y /\
    t' = Some (mkTensor s (is_contiguous y) (device y) (data y)) /\
    tr' = tr ++ [EvView s] /\
    multiply_integers s = numel y.
Proof.
  intros Hwf. unfold view, bind, emit, lift.
  destruct t as [y|]; [|discriminate].
  destruct (infer_size s (numel y)) as [s'|e] eqn:E; [|discriminate].
  apply (infer_size_wf_inv _ _ _ Hwf) in E as [-> Hn].
  destruct (_ || _); [|discriminate].
  unfold ret. intros H. inversion H; subst. exists y. auto.
Qed.

(** The size inference of the [{1, M, -1}] reshape. *)
Lemma infer_size_batch_view (M N : Z) :
  0 <= M ->
  infer_size [1; M; -1] (M * N) =
  if M =? 0 then Raise InvalidView else Ok [1; M; N].
Proof.
  intros HM. unfold infer_size.
  cbn [filter existsb map length].
  replace (1 =? -1) with false by reflexivity.
  replace (-1 =? -1) with true by reflexivity.
  replace (1 <? -1) with false by reflexivity.
  replace (-1 <? -1) with false by reflexivity.
  destruct (Z.eqb_spec M (-1)) as [?|_]; [lia|].
  destruct (Z.ltb_spec M (-1)) as [?|_]; [lia|].
  cbn [negb orb length Nat.sub multiply_integers fold_right].
  replace (1 * (M * 1)) with M by ring.
  destruct (Z.eqb_spec M 0) as [->|HM0]; [reflexivity|].
  destruct (Z.ltb_spec 0 M) as [_|?]; [|lia].
  rewrite Z.mul_comm, Z.mod_mul by lia.
  rewrite Z.div_mul by lia. reflexivity.
Qed.

(** The [{1, M, -1}] reshape of a validated input. *)
Lemma view_batch `{K : Collaborators} (x : TensorImpl) (M N : Z) (tr : Trace) :
  0 <= M -> M * N = numel x ->
  view (Some x) [1; M; -1] tr =
  (if M =? 0 then Raise InvalidView
   else if is_contiguous x || stride_viewable x [1; M; N]
        then Ok (Some (mkTensor [1; M; N] (is_contiguous x) (device x) (data x)))
        else Raise InvalidView,
   tr ++ [EvView [1; M; -1]]).
Proof.
  intros HM Hn. unfold view, bind, emit, lift.
  rewrite <- Hn, (infer_size_batch_view M N HM).
  destruct (M =? 0); [reflexivity|].
  destruct (_ || _); reflexivity.
Qed.

Lemma apply_affine_run `{K : Collaborators} (out weight bias : Tensor) tr :
  apply_affine out weight bias tr =
  (Ok (match defined weight, defined bias with
       | true, true => addcmul bias out weight 1
       | true, false => mul out weight
       | false, true => add out bias
       | false, false => out
       end),
   tr ++ affine_events weight bias).
Proof.
  unfold apply_affine, affine_events.
  destruct (defined weight), (defined bias); cbn [andb];
    unfold bind, emit, ret; rewrite ?app_nil_r; reflexivity.
Qed.

Lemma copy_events_no_affine_op (t : Tensor) :
  filter is_affine_op (copy_events t) = [].
Proof. destruct t as [[s [|] d b]|]; reflexivity. Qed.

Lemma conditional_copy_no_affine_op (c : bool) (s : list Z) :
  filter is_affine_op (if c then [] else [EvAlloc AllocContiguousCopy s]) = [].
Proof. destruct c; reflexivity. Qed.

Lemma affine_events_all_ops (weight bias : Tensor) :
  filter is_affine_op (affine_events weight bias) = affine_events weight bias.
Proof.
  unfold affine_events. destruct (defined weight), (defined bias); reflexivity.
Qed.

(** ** C10: no degenerate-batch short-circuit on the fallback path *)

(** C10: for every input that passes validation the fallback path attempts
    the [{1, M, -1}] reshape right after the contiguity copies, whatever
    [M] is; past that attempt either the reshape itself has raised or the
    batch-norm collaborator is invoked on the [{1, M, N}] view, so no
    result is returned without it.  With [M = 0] the inferred dimension is
    undefined and the call raises instead of returning an empty result;
    with [M > 0] and a contiguous input batch norm is invoked. *)
Theorem fallback_no_short_circuit
    (K : Collaborators) (x : TensorImpl) (ns : list Z)
    (weight_opt bias_opt : option Tensor) (eps : double) (M N : Z)
    (r : result (Tensor * Tensor * Tensor)) (tr : Trace) :
  wf_shape (sizes x) = true ->
  _check_layer_norm_inputs (Some x) ns
    (borrow_from_optional_tensor weight_opt)
    (borrow_from_optional_tensor bias_opt) = Ok (M, N) ->
  run (math_native_layer_norm (Some x) ns weight_opt bias_opt eps) = (r, tr) ->
  exists rest,
    tr = copy_events (Some x) ++
         copy_events (borrow_from_optional_tensor weight_opt) ++
         EvView [1; M; -1] :: rest /\
    ((exists e, r = Raise e /\ rest = []) \/
     (exists rest', rest = EvBatchNorm [1; M; N] false false true :: rest')) /\
    (M = 0 -> r = Raise InvalidView /\ rest = []) /\
    (0 < M -> is_contiguous x = true ->
     exists rest', rest = EvBatchNorm [1; M; N] false false true :: rest').
Proof.
  intros Hwf Hchk.
  pose proof (check_M_nonneg _ _ _ _ _ _ Hwf Hchk) as HM0.
  pose proof (check_M_times_N _ _ _ _ _ _ x Hchk eq_refl) as Hnumel.
  unfold run, math_native_layer_norm.
  unfold bind at 1, lift. rewrite Hchk. cbn [fst snd].
  unfold bind at 1. rewrite expect_contiguous_run.
  unfold bind at 1. rewrite expect_contiguous_run.
  unfold bind at 1. rewrite (view_batch x M N _ HM0 Hnumel).
  rewrite app_nil_l, <- app_assoc.
  destruct (Z.eqb_spec M 0) as [HM|HM].
  - intros H. inversion H; subst r tr. exists []. split; [reflexivity|].
    split; [left; eauto|]. split; [auto | lia].
  - destruct (is_contiguous x || stride_viewable x [1; M; N]) eqn:Hview.
    + unfold bind at 1, emit. cbn [sizes_of sizes].
      match goal with
      | |- ?k ?t0 = _ -> _ =>
          assert (Hk : appends k)
      end.
      { repeat (apply appends_bind;
                [first [apply appends_view | apply appends_apply_affine]
                | intros ?]).
        apply appends_ret. }
      intros Hrun.
      match type of Hrun with
      | _ ?t0 = _ => destruct (Hk t0) as (evs & Hevs)
      end.
      rewrite Hrun in Hevs. cbn [snd] in Hevs. subst tr.
      exists (EvBatchNorm [1; M; N] false false true :: evs).
      split; [now rewrite <- !app_assoc|].
      split; [right; eauto|]. split; [lia | eauto].
    + intros H. inversion H; subst r tr. exists []. split; [reflexivity|].
      split; [left; eauto|]. split; [lia|].
      intros _ Hc. rewrite Hc in Hview. discriminate Hview.
Qed.

(** The theorem at the zero-batch input of shape [0; 3] with normalized
    shape [3]: the reshape is attempted and raises. *)
Lemma fallback_no_short_circuit_witness :
  exists rest,
    [EvView [1; 0; -1]] = [] ++ [] ++ EvView [1; 0; -1] :: rest /\
    ((exists e, @Raise (Tensor * Tensor * Tensor) InvalidView = Raise e /\
                rest = []) \/
     (exists rest', rest = EvBatchNorm [1; 0; 3] false false true :: rest')) /\
    (0 = 0 ->
     @Raise (Tensor * Tensor * Tensor) InvalidView = Raise InvalidView /\
     rest = []) /\
    (0 < 0 -> true = true ->
     exists rest', rest = EvBatchNorm [1; 0; 3] false false true :: rest').
Proof.
  exact (fallback_no_short_circuit ref_collaborators
           (mkTensor [0; 3] true CPU []) [3] None None 0 0 3
           (Raise InvalidView) [EvView [1; 0; -1]]
           eq_refl eq_refl eq_refl).
Defined.

(** ** C7: the affine step of the fallback path *)

(** C7: whenever the fallback path returns on a validated input, its
    output is obtained from [normalized], the batch-norm output reshaped to
    the original input shape, by exactly one of: [bias.addcmul(normalized,
    weight, 1)] alone when scale and bias are both present,
    [normalized.mul(weight)] when only the scale is,
    [normalized.add(bias)] when only the bias is, and [normalized] itself
    when neither is; the operation comes after batch norm and after the
    reshape, and no other elementwise operation is performed. *)
Theorem fallback_affine_branch
    (K : Collaborators) (x : TensorImpl) (ns : list Z)
    (weight_opt bias_opt : option Tensor) (eps : double) (M N : Z)
    (out mean rstd : Tensor) (tr : Trace) :
  wf_shape (sizes x) = true ->
  _check_layer_norm_inputs (Some x) ns
    (borrow_from_optional_tensor weight_opt)
    (borrow_from_optional_tensor bias_opt) = Ok (M, N) ->
  run (math_native_layer_norm (Some x) ns weight_opt bias_opt eps) =
    (Ok (out, mean, rstd), tr) ->
  exists reshaped bn_out normalized,
    sizes_of reshaped = [1; M; N] /\
    fst (fst (native_batch_norm reshaped None None None None true 0 eps)) =
      Some bn_out /\
    normalized =
      Some (mkTensor (sizes x) (is_contiguous bn_out) (device bn_out)
              (data bn_out)) /\
    tr = fallback_prefix (Some x) (borrow_from_optional_tensor weight_opt) M N ++
         filter is_affine_op tr ++
         [EvView (broadcast_stat_shape (sizes x) ns);
          EvView (broadcast_stat_shape (sizes x) ns)] /\
    (defined (borrow_from_optional_tensor weight_opt) = true ->
     defined (borrow_from_optional_tensor bias_opt) = true ->
     out = addcmul (borrow_from_optional_tensor bias_opt) normalized
             (borrow_from_optional_tensor weight_opt) 1 /\
     filter is_affine_op tr = [EvAddcmul]) /\
    (defined (borrow_from_optional_tensor weight_opt) = true ->
     defined (borrow_from_optional_tensor bias_opt) = false ->
     out = mul normalized (borrow_from_optional_tensor weight_opt) /\
     filter is_affine_op tr = [EvMul]) /\
    (defined (borrow_from_optional_tensor weight_opt) = false ->
     defined (borrow_from_optional_tensor bias_opt) = true ->
     out = add normalized (borrow_from_optional_tensor bias_opt) /\
     filter is_affine_op tr = [EvAdd]) /\
    (defined (borrow_from_optional_tensor weight_opt) = false ->
     defined (borrow_from_optional_tensor bias_opt) = false ->
     out = normalized /\ filter is_affine_op tr = []).
Proof.
  intros Hwf Hchk.
  pose proof (check_M_nonneg _ _ _ _ _ _ Hwf Hchk) as HM0.
  pose proof (check_M_times_N _ _ _ _ _ _ x Hchk eq_refl) as Hnumel.
  destruct (check_layer_norm_inputs_ok _ _ _ _ _ _ Hchk)
    as (x' & Ex & Hle & _).
  inversion Ex; subst x'; clear Ex.
  set (weight := borrow_from_optional_tensor weight_opt) in *.
  set (bias := borrow_from_optional_tensor bias_opt) in *.
  unfold run, math_native_layer_norm. fold weight. fold bias.
  unfold bind at 1, lift. rewrite Hchk. cbn [fst snd].
  unfold bind at 1. rewrite expect_contiguous_run.
  unfold bind at 1. rewrite expect_contiguous_run.
  unfold bind at 1. rewrite (view_batch x M N _ HM0 Hnumel).
  rewrite app_nil_l, <- app_assoc.
  destruct (M =? 0); [discriminate|].
  destruct (is_contiguous x || stride_viewable x [1; M; N]); [|discriminate].
  unfold bind at 1, emit. cbn [sizes_of sizes].
  fold (axis_of (sizes x) ns). rewrite (stat_shape_of_broadcast _ _ Hle).
  set (reshaped := Some (mkTensor [1; M; N] (is_contiguous x) (device x) (data x))).
  set (outputs := native_batch_norm reshaped None None None None true 0 eps).
  intros Hrun.
  apply bind_ok_inv in Hrun as (o & tr1 & Hv1 & Hrun).
  apply (view_ok_inv _ _ _ _ _ Hwf) in Hv1 as (bn_out & Hbn & -> & -> & _).
  apply bind_ok_inv in Hrun as (o2 & tr2 & Ha & Hrun).
  rewrite apply_affine_run in Ha. inversion Ha; subst o2 tr2; clear Ha.
  apply bind_ok_inv in Hrun as (m' & tr3 & Hv2 & Hrun).
  apply (view_ok_inv _ _ _ _ _ (wf_shape_broadcast _ ns Hwf)) in Hv2
    as (_ & _ & _ & -> & _).
  apply bind_ok_inv in Hrun as (r' & tr4 & Hv3 & Hrun).
  apply (view_ok_inv _ _ _ _ _ (wf_shape_broadcast _ ns Hwf)) in Hv3
    as (_ & _ & _ & -> & _).
  unfold ret in Hrun. inversion Hrun; subst out mean rstd tr; clear Hrun.
  change (if is_contiguous x then []
          else [EvAlloc AllocContiguousCopy (sizes x)])
    with (copy_events (Some x)).
  match goal with
  | |- context [filter is_affine_op ?t] =>
      assert (Hops : filter is_affine_op t = affine_events weight bias)
  end.
  { rewrite !filter_app, ?copy_events_no_affine_op,
      ?conditional_copy_no_affine_op, affine_events_all_ops.
    simpl. rewrite !app_nil_r. reflexivity. }
  exists reshaped, bn_out, (Some (mkTensor (sizes x) (is_contiguous bn_out)
                                    (device bn_out) (data bn_out))).
  split; [reflexivity|]. split; [exact Hbn|]. split; [reflexivity|].
  rewrite Hops. split.
  { unfold fallback_prefix. cbn [sizes_of]. rewrite <- !app_assoc. reflexivity. }
  unfold affine_events.
  repeat (match goal with |- _ /\ _ => split end);
    intros Hw Hb; rewrite Hw, Hb; split; reflexivity.
Qed.

(** The theorem at input shape [2; 3], normalized shape [3], with scale and
    bias present: the one elementwise operation is [addcmul]. *)
Lemma fallback_affine_branch_witness :
  exists normalized,
    sizes_of normalized = [2; 3] /\
    zeros [2; 3] CPU =
      addcmul (Collaborators := ref_collaborators)
        (tensor [3] true) normalized (tensor [3] true) 1 /\
    filter is_affine_op
      [EvView [1; 2; -1]; EvBatchNorm [1; 2; 3] false false true;
       EvView [2; 3]; EvAddcmul; EvView [2; 1]; EvView [2; 1]] = [EvAddcmul].
Proof.
  destruct (fallback_affine_branch ref_collaborators
              (mkTensor [2; 3] true CPU (repeat (Bits 1) 6)) [3]
              (Some (tensor [3] true)) (Some (tensor [3] true)) 0 2 3
              (zeros [2; 3] CPU) (zeros [2; 1] CPU) (zeros [2; 1] CPU)
              [EvView [1; 2; -1]; EvBatchNorm [1; 2; 3] false false true;
               EvView [2; 3]; EvAddcmul; EvView [2; 1]; EvView [2; 1]]
              eq_refl eq_refl eq_refl)
    as (reshaped & bn_out & normalized & _ & _ & Hn & _ & Hboth & _).
  exists normalized. split; [rewrite Hn; reflexivity|].
  exact (Hboth eq_refl eq_refl).
Defined.

(** ** C9: the deprecated flag of the public entry point *)

(** C9: whatever the dispatched native forward operation is, [layer_norm]
    does not look at its trailing boolean: called with [true] and with
    [false] it behaves identically, and either way it runs the native
    forward operation once and returns the first component of its result
    triple, or propagates its error; [layer_norm_new] does the same. *)
Theorem layer_norm_ignores_flag
    (native_layer_norm :
       Tensor -> list Z -> option Tensor -> option Tensor -> double ->
       Eff (Tensor * Tensor * Tensor))
    (input : Tensor) (ns : list Z) (weight_opt bias_opt : option Tensor)
    (eps : double) :
  layer_norm native_layer_norm input ns weight_opt bias_opt eps true =
  layer_norm native_layer_norm input ns weight_opt bias_opt eps false /\
  (forall (flag : bool) (tr : Trace),
     layer_norm native_layer_norm input ns weight_opt bias_opt eps flag tr =
     match native_layer_norm input ns weight_opt bias_opt eps tr with
     | (Ok (Y, _, _), tr') => (Ok Y, tr')
     | (Raise e, tr') => (Raise e, tr')
     end) /\
  (forall flag : bool,
     layer_norm native_layer_norm input ns weight_opt bias_opt eps flag =
     layer_norm_new native_layer_norm input ns weight_opt bias_opt eps).
Proof.
  split; [reflexivity|]. split; [|reflexivity].
  intros flag tr. unfold layer_norm, bind, ret, get0.
  destruct (native_layer_norm input ns weight_opt bias_opt eps tr)
    as [[[[Y mean] rstd]|e] tr']; reflexivity.
Qed.

(** * Further properties of the orchestration *)

(** ** The statistic shape built by the two loops *)

Lemma stat_shape_of_split (s : list Z) (axis : nat) :
  (axis <= length s)%nat ->
  stat_shape_of s axis (length s) =
  firstn axis s ++ repeat 1 (length (skipn axis s)).
Proof.
  intros Hle. unfold stat_shape_of.
  rewrite nth_seq_firstn by exact Hle.
  rewrite map_const_repeat, length_seq, length_skipn. reflexivity.
Qed.

Lemma Forall2_same_or_one_refl (l : list Z) :
  Forall2 (fun st d => st = d \/ st = 1) l l.
Proof. induction l; constructor; auto. Qed.

Lemma Forall2_ones (l : list Z) :
  Forall2 (fun st d => st = d \/ st = 1) (repeat 1 (length l)) l.
Proof. induction l; simpl; constructor; auto. Qed.

(** The shape the two loops of [layer_norm_impl_out] (and of
    [math_native_layer_norm]) build has the rank of the input, keeps the
    leading [axis] sizes, is 1 from [axis] on, and so broadcasts against
    the input shape entry by entry. *)
Theorem stat_shape_broadcasts (s : list Z) (axis : nat) :
  (axis <= length s)%nat ->
  length (stat_shape_of s axis (length s)) = length s /\
  firstn axis (stat_shape_of s axis (length s)) = firstn axis s /\
  skipn axis (stat_shape_of s axis (length s)) =
    repeat 1 (length s - axis) /\
  Forall2 (fun st d => st = d \/ st = 1) (stat_shape_of s axis (length s)) s.
Proof.
  intros Hle. rewrite (stat_shape_of_split s axis Hle).
  assert (Hlen : length (firstn axis s) = axis)
    by (rewrite length_firstn; lia).
  repeat split.
  - rewrite length_app, repeat_length, length_firstn, length_skipn. lia.
  - rewrite firstn_app, Hlen, Nat.sub_diag, firstn_O, app_nil_r.
    rewrite firstn_all2 by lia. reflexivity.
  - rewrite skipn_app, Hlen, Nat.sub_diag, skipn_O.
    rewrite skipn_all2 by lia. rewrite length_skipn. reflexivity.
  - rewrite <- (firstn_skipn axis s) at 3.
    apply Forall2_app; [apply Forall2_same_or_one_refl | apply Forall2_ones].
Qed.

Lemma stat_shape_broadcasts_witness :
  length (stat_shape_of [2; 3; 4] 1 3) = 3%nat /\
  firstn 1 (stat_shape_of [2; 3; 4] 1 3) = [2] /\
  skipn 1 (stat_shape_of [2; 3; 4] 1 3) = [1; 1] /\
  Forall2 (fun st d => st = d \/ st = 1) (stat_shape_of [2; 3; 4] 1 3)
    [2; 3; 4].
Proof.
  exact (stat_shape_broadcasts [2; 3; 4] 1 (le_S _ _ (le_S _ _ (le_n 1)))).
Defined.

(** Reshaping a contiguous statistic of length [M = product(shape[0:axis])]
    to the shape built by the two loops always succeeds, costs no
    allocation and leaves the buffer contents as they are. *)
Theorem stat_reshape_keeps_data
    (K : Collaborators) (m : TensorImpl) (s : list Z) (axis : nat)
    (tr : Trace) :
  wf_shape s = true ->
  (axis <= length s)%nat ->
  is_contiguous m = true ->
  sizes m = [multiply_integers (firstn axis s)] ->
  view (Some m) (stat_shape_of s axis (length s)) tr =
  (Ok (Some (mkTensor (stat_shape_of s axis (length s)) true (device m)
               (data m))),
   tr ++ [EvView (stat_shape_of s axis (length s))]).
Proof.
  intros Hwf Hle Hc Hs.
  apply view_exact; [exact Hc | |].
  - rewrite (stat_shape_of_split s axis Hle).
    apply wf_shape_app; [apply wf_shape_firstn, Hwf | apply wf_shape_ones].
  - rewrite (stat_shape_of_split s axis Hle).
    rewrite multiply_integers_app, multiply_integers_ones.
    unfold numel. rewrite Hs. unfold multiply_integers. simpl. ring.
Qed.

Lemma stat_reshape_keeps_data_witness :
  @view ref_collaborators
    (Some (mkTensor [6] true CPU (repeat (Bits 7) 6)))
    (stat_shape_of [2; 3; 4] 2 3) [] =
  (Ok (Some (mkTensor (stat_shape_of [2; 3; 4] 2 3) true CPU
               (repeat (Bits 7) 6))),
   [] ++ [EvView (stat_shape_of [2; 3; 4] 2 3)]).
Proof.
  exact (stat_reshape_keeps_data ref_collaborators
           (mkTensor [6] true CPU (repeat (Bits 7) 6)) [2; 3; 4] 2 []
           eq_refl (le_S _ _ (le_n 2)) eq_refl eq_refl).
Defined.

(** ** The forward path on a non-degenerate batch *)

(** [layer_norm_impl_out] with [M > 0]: one kernel invocation, then the two
    reshapes; the output buffer keeps its metadata. *)
Lemma layer_norm_impl_out_nondegenerate
    (K : Collaborators) (HK : KernelContract K)
    (out : Tensor) (m r x : TensorImpl) (ns : list Z) (gamma beta : Tensor)
    (eps : double) (M N : Z) (tr : Trace) :
  0 < M ->
  wf_shape (sizes x) = true ->
  (length ns <= length (sizes x))%nat ->
  M = multiply_integers (firstn (axis_of (sizes x) ns) (sizes x)) ->
  sizes m = [M] -> is_contiguous m = true ->
  sizes r = [M] -> is_contiguous r = true ->
  exists Y m' r',
    layer_norm_impl_out out (Some m) (Some r) (Some x) ns gamma beta eps M N tr =
      (Ok (Y, Some m', Some r'),
       tr ++ [EvLayerNormKernel M N;
              EvView (broadcast_stat_shape (sizes x) ns);
              EvView (broadcast_stat_shape (sizes x) ns)]) /\
    same_meta out Y /\
    sizes m' = broadcast_stat_shape (sizes x) ns /\
    sizes r' = broadcast_stat_shape (sizes x) ns.
Proof.
  intros HM Hwf Hle HMeq Hms Hmc Hrs Hrc.
  unfold layer_norm_impl_out.
  destruct (Z.leb_spec M 0) as [?|_]; [lia|].
  unfold bind at 1, emit.
  match goal with
  | |- context [LayerNormKernel ?d ?X ?g ?b ?mm ?n ?e ?bufs] =>
      pose proof (forward_kernel_in_place d X g b mm n e bufs)
        as (Hout & Hmean & Hrstd);
      destruct (LayerNormKernel d X g b mm n e bufs) as [[Y mean] rstd]
  end.
  cbn [fst snd] in Hout, Hmean, Hrstd.
  destruct mean as [m'|]; [|contradiction].
  destruct rstd as [r'|]; [|contradiction].
  destruct Hmean as (Hms' & Hmc' & _). destruct Hrstd as (Hrs' & Hrc' & _).
  unfold dim. fold (axis_of (sizes x) ns).
  rewrite (stat_shape_of_broadcast _ _ Hle).
  assert (Hprod : forall y, sizes y = [M] ->
            multiply_integers (broadcast_stat_shape (sizes x) ns) = numel y).
  { intros y Hy. unfold numel. rewrite Hy, multiply_integers_broadcast, <- HMeq.
    unfold multiply_integers. simpl. ring. }
  unfold bind at 1.
  rewrite (view_exact m' _ _) by
    (try apply wf_shape_broadcast; try apply Hprod; congruence).
  unfold bind at 1.
  rewrite (view_exact r' _ _) by
    (try apply wf_shape_broadcast; try apply Hprod; congruence).
  unfold ret. do 3 eexists. rewrite <- !app_assoc.
  split; [reflexivity|]. repeat split; auto.
Qed.

(** The whole run of [_layer_norm] on a valid input with [M > 0]. *)
Lemma forward_nondegenerate_full
    (K : Collaborators) (HK : KernelContract K)
    (x : TensorImpl) (ns : list Z) (weight_opt bias_opt : option Tensor)
    (eps : double) (M N : Z) :
  wf_shape (sizes x) = true ->
  _check_layer_norm_inputs (Some x) ns
    (borrow_from_optional_tensor weight_opt)
    (borrow_from_optional_tensor bias_opt) = Ok (M, N) ->
  0 < M ->
  exists Y mean rstd,
    run (_layer_norm (Some x) ns weight_opt bias_opt eps) =
      (Ok (Some Y, Some mean, Some rstd),
       layer_init_events (Some x)
         (borrow_from_optional_tensor weight_opt)
         (borrow_from_optional_tensor bias_opt) M ++
       [EvAlloc AllocEmptyLike (sizes x); EvLayerNormKernel M N;
        EvView (broadcast_stat_shape (sizes x) ns);
        EvView (broadcast_stat_shape (sizes x) ns)]) /\
    sizes Y = sizes x /\ is_contiguous Y = true /\ device Y = device x /\
    sizes mean = broadcast_stat_shape (sizes x) ns /\
    sizes rstd = broadcast_stat_shape (sizes x) ns.
Proof.
  intros Hwf Hchk HM.
  destruct (check_layer_norm_inputs_ok _ _ _ _ _ _ Hchk)
    as (x' & Ex & Hle & _ & HMeq & _).
  inversion Ex; subst x'; clear Ex.
  unfold run, _layer_norm, bind at 1.
  rewrite (layer_init_run _ _ _ _ _ _ _ Hchk) by lia.
  cbn [as_contiguous]. unfold bind at 1, empty_like, bind at 1, emit, ret.
  unfold flat_stat.
  match goal with
  | |- context [layer_norm_impl_out ?o (Some ?m) (Some ?r) (Some ?xx) ns ?g ?b eps M N ?t] =>
      destruct (layer_norm_impl_out_nondegenerate K HK o m r xx ns g b eps
                  M N t HM Hwf Hle HMeq eq_refl eq_refl eq_refl eq_refl)
        as (Y & m' & r' & Hrun & Hout & Hm' & Hr')
  end.
  rewrite Hrun. cbn [sizes] in *.
  destruct Y as [Y|]; [|contradiction].
  destruct Hout as (Hs & Hc & Hd). cbn [sizes is_contiguous device] in Hs, Hc, Hd.
  exists Y, m', r'. rewrite app_nil_l, <- !app_assoc.
  split; [reflexivity|].
  repeat split; congruence.
Qed.

(** For every valid forward call with [M > 0] and kernels that fill their
    buffers in place, [_layer_norm] returns a contiguous output of the
    shape and on the device of the input, also for a non-contiguous
    input; it performs the allocations of [layer_init], allocates the
    output, invokes the forward kernel exactly once and then reshapes the
    two statistics, in this order and nothing else. *)
Theorem forward_nondegenerate_run
    (K : Collaborators) (HK : KernelContract K)
    (x : TensorImpl) (ns : list Z) (weight_opt bias_opt : option Tensor)
    (eps : double) (M N : Z) :
  wf_shape (sizes x) = true ->
  _check_layer_norm_inputs (Some x) ns
    (borrow_from_optional_tensor weight_opt)
    (borrow_from_optional_tensor bias_opt) = Ok (M, N) ->
  0 < M ->
  exists Y mean rstd tr,
    run (_layer_norm (Some x) ns weight_opt bias_opt eps) =
      (Ok (Some Y, mean, rstd), tr) /\
    sizes Y = sizes x /\ is_contiguous Y = true /\ device Y = device x /\
    tr = layer_init_events (Some x)
           (borrow_from_optional_tensor weight_opt)
           (borrow_from_optional_tensor bias_opt) M ++
         [EvAlloc AllocEmptyLike (sizes x); EvLayerNormKernel M N;
          EvView (broadcast_stat_shape (sizes x) ns);
          EvView (broadcast_stat_shape (sizes x) ns)] /\
    filter is_kernel tr = [EvLayerNormKernel M N].
Proof.
  intros Hwf Hchk HM.
  destruct (forward_nondegenerate_full K HK x ns weight_opt bias_opt eps
              M N Hwf Hchk HM)
    as (Y & mean & rstd & Hrun & Hs & Hc & Hd & _).
  exists Y, (Some mean), (Some rstd). eexists. split; [exact Hrun|].
  repeat split; auto.
  rewrite !filter_app, layer_init_events_no_kernel. reflexivity.
Qed.

Lemma forward_nondegenerate_run_witness :
  exists Y mean rstd tr,
    run (_layer_norm (K := ref_collaborators) (tensor [2; 3] false) [3]
           None None 0) = (Ok (Some Y, mean, rstd), tr) /\
    sizes Y = [2; 3] /\ is_contiguous Y = true /\ device Y = CPU /\
    tr = [EvAlloc AllocContiguousCopy [2; 3]; EvAlloc AllocEmpty [2];
          EvAlloc AllocEmpty [2]; EvAlloc AllocEmptyLike [2; 3];
          EvLayerNormKernel 2 3; EvView [2; 1]; EvView [2; 1]] /\
    filter is_kernel tr = [EvLayerNormKernel 2 3].
Proof.
  exact (forward_nondegenerate_run ref_collaborators ref_contract
           (mkTensor [2; 3] false CPU (repeat (Bits 1) 6)) [3] None None 0 2 3
           eq_refl eq_refl eq_refl).
Defined.

(** ** [layer_norm_new_out], the variant writing into a caller's buffer *)

(** For every valid call with [M <= 0], [layer_norm_new_out] hands the
    caller's [out] back exactly as it was passed, whatever it is, having
    allocated only what [layer_init] allocates: no output buffer and no
    kernel invocation. *)
Theorem layer_norm_new_out_degenerate
    (K : Collaborators) (x : TensorImpl) (ns : list Z)
    (weight_opt bias_opt : option Tensor) (eps : double) (out : Tensor)
    (M N : Z) :
  wf_shape (sizes x) = true ->
  _check_layer_norm_inputs (Some x) ns
    (borrow_from_optional_tensor weight_opt)
    (borrow_from_optional_tensor bias_opt) = Ok (M, N) ->
  M <= 0 ->
  run (layer_norm_new_out (Some x) ns weight_opt bias_opt eps out) =
  (Ok out,
   layer_init_events (Some x)
     (borrow_from_optional_tensor weight_opt)
     (borrow_from_optional_tensor bias_opt) M).
Proof.
  intros Hwf Hchk HM.
  pose proof (check_M_nonneg _ _ _ _ _ _ Hwf Hchk) as HM0.
  unfold run, layer_norm_new_out, bind at 1.
  rewrite (layer_init_run _ _ _ _ _ _ _ Hchk) by lia.
  unfold bind at 1, layer_norm_impl_out.
  destruct (Z.leb_spec M 0) as [_|?]; [|lia].
  reflexivity.
Qed.

Lemma layer_norm_new_out_degenerate_witness :
  run (layer_norm_new_out (K := ref_collaborators) (tensor [0; 3] true) [3]
         None None 0 (tensor [5] true)) =
  (Ok (tensor [5] true), [EvAlloc AllocEmpty [0]; EvAlloc AllocEmpty [0]]).
Proof.
  exact (layer_norm_new_out_degenerate ref_collaborators
           (mkTensor [0; 3] true CPU []) [3] None None 0 (tensor [5] true) 0 3
           eq_refl eq_refl (Z.le_refl 0)).
Defined.

(** For every valid call with [M > 0] and kernels that fill their buffers
    in place, [layer_norm_new_out] returns a tensor with the metadata of
    the [out] it was passed: the buffer is neither checked against the
    input shape nor resized to it, and no output buffer is allocated; the
    kernel is invoked exactly once. *)
Theorem layer_norm_new_out_nondegenerate
    (K : Collaborators) (HK : KernelContract K)
    (x : TensorImpl) (ns : list Z) (weight_opt bias_opt : option Tensor)
    (eps : double) (out : Tensor) (M N : Z) :
  wf_shape (sizes x) = true ->
  _check_layer_norm_inputs (Some x) ns
    (borrow_from_optional_tensor weight_opt)
    (borrow_from_optional_tensor bias_opt) = Ok (M, N) ->
  0 < M ->
  exists out',
    run (layer_norm_new_out (Some x) ns weight_opt bias_opt eps out) =
      (Ok out',
       layer_init_events (Some x)
         (borrow_from_optional_tensor weight_opt)
         (borrow_from_optional_tensor bias_opt) M ++
       [EvLayerNormKernel M N;
        EvView (broadcast_stat_shape (sizes x) ns);
        EvView (broadcast_stat_shape (sizes x) ns)]) /\
    same_meta out out'.
Proof.
  intros Hwf Hchk HM.
  destruct (check_layer_norm_inputs_ok _ _ _ _ _ _ Hchk)
    as (x' & Ex & Hle & _ & HMeq & _).
  inversion Ex; subst x'; clear Ex.
  unfold run, layer_norm_new_out, bind at 1.
  rewrite (layer_init_run _ _ _ _ _ _ _ Hchk) by lia.
  cbn [as_contiguous]. unfold bind at 1, flat_stat.
  match goal with
  | |- context [layer_norm_impl_out ?o (Some ?m) (Some ?r) (Some ?xx) ns ?g ?b eps M N ?t] =>
      destruct (layer_norm_impl_out_nondegenerate K HK o m r xx ns g b eps
                  M N t HM Hwf Hle HMeq eq_refl eq_refl eq_refl eq_refl)
        as (Y & m' & r' & Hrun & Hout & _)
  end.
  rewrite Hrun. cbn [sizes]. unfold ret.
  exists Y. split; [reflexivity | exact Hout].
Qed.

Lemma layer_norm_new_out_nondegenerate_witness :
  exists out',
    run (layer_norm_new_out (K := ref_collaborators) (tensor [2; 3] true) [3]
           None None 0 (tensor [5] true)) =
      (Ok out',
       [EvAlloc AllocEmpty [2]; EvAlloc AllocEmpty [2];
        EvLayerNormKernel 2 3; EvView [2; 1]; EvView [2; 1]]) /\
    same_meta (tensor [5] true) out'.
Proof.
  exact (layer_norm_new_out_nondegenerate ref_collaborators ref_contract
           (mkTensor [2; 3] true CPU (repeat (Bits 1) 6)) [3] None None 0
           (tensor [5] true) 2 3 eq_refl eq_refl eq_refl).
Defined.

(** ** The trace is write-only *)

Lemma oblivious_ret {A} (a : A) : oblivious (ret a).
Proof. intros tr1 tr2. reflexivity. Qed.

Lemma oblivious_raise {A} (e : Error) : oblivious (@raise A e).
Proof. intros tr1 tr2. reflexivity. Qed.

Lemma oblivious_lift {A} (r : result A) : oblivious (lift r).
Proof. intros tr1 tr2. reflexivity. Qed.

Lemma oblivious_emit (e : Event) : oblivious (emit e).
Proof. intros tr1 tr2. reflexivity. Qed.

Lemma oblivious_bind {A B} (m : Eff A) (f : A -> Eff B) :
  oblivious m -> (forall a, oblivious (f a)) -> oblivious (bind m f).
Proof.
  intros Hm Hf tr1 tr2. unfold bind.
  specialize (Hm tr1 tr2).
  destruct (m tr1) as [[a1|e1] t1], (m tr2) as [[a2|e2] t2];
    cbn [fst] in Hm; try discriminate Hm.
  - inversion Hm; subst. apply Hf.
  - inversion Hm; subst. reflexivity.
Qed.

Lemma oblivious_view `{K : Collaborators} (t : Tensor) (s : list Z) :
  oblivious (view t s).
Proof.
  unfold view. apply oblivious_bind; [apply oblivious_emit|]. intros _.
  destruct t as [x|]; [|apply oblivious_raise].
  apply oblivious_bind; [apply oblivious_lift|]. intros s'.
  destruct (_ || _); [apply oblivious_ret | apply oblivious_raise].
Qed.

Lemma oblivious_layer_norm_impl_out `{K : Collaborators}
    (out mean rstd input : Tensor) (ns : list Z) (gamma beta : Tensor)
    (eps : double) (M N : Z) :
  oblivious (layer_norm_impl_out out mean rstd input ns gamma beta eps M N).
Proof.
  unfold layer_norm_impl_out.
  destruct (M <=? 0); [apply oblivious_ret|].
  destruct input as [x|]; [|apply oblivious_raise].
  apply oblivious_bind; [apply oblivious_emit|]. intros _.
  destruct (LayerNormKernel _ _ _ _ _ _ _ _) as [[o m] r].
  repeat (apply oblivious_bind; [apply oblivious_view | intros ?]).
  apply oblivious_ret.
Qed.

(** What [layer_init] hands back as [X] when it succeeds. *)
Lemma layer_init_ok_inv `{K : Collaborators}
    input ns weight_opt bias_opt tr X M N gamma beta mean rstd tr' :
  layer_init input ns weight_opt bias_opt tr =
    (Ok (X, M, N, gamma, beta, mean, rstd), tr') ->
  exists x, input = Some x /\ X = as_contiguous (Some x).
Proof.
  unfold layer_init. unfold bind at 1. rewrite expect_contiguous_run.
  unfold bind at 1, lift.
  destruct input as [x|]; [|discriminate].
  destruct (_check_layer_norm_inputs _ _ _ _) as [[M' N']|e]; [|discriminate].
  unfold bind at 1. rewrite expect_contiguous_run.
  unfold bind at 1. rewrite expect_contiguous_run.
  cbn [as_contiguous]. unfold empty.
  destruct (fst (M', N') <? 0); [discriminate|].
  unfold bind, emit, ret. intros H. inversion H; subst.
  exists x. auto.
Qed.

(** [_layer_norm] is [layer_norm_new_out] on a fresh buffer: for every
    input, valid or not, the output (or the error) of [_layer_norm] is what
    [layer_norm_new_out] returns when it is handed the uninitialised
    input-shaped buffer that [_layer_norm] allocates for itself. *)
Theorem layer_norm_is_new_out_on_fresh_buffer
    (K : Collaborators) (input : Tensor) (ns : list Z)
    (weight_opt bias_opt : option Tensor) (eps : double) :
  fst (run (layer_norm_new_out input ns weight_opt bias_opt eps
              (fresh_like input))) =
  result_map get0 (fst (run (_layer_norm input ns weight_opt bias_opt eps))).
Proof.
  unfold run, layer_norm_new_out, _layer_norm.
  unfold bind at 1. unfold bind at 2.
  destruct (layer_init input ns weight_opt bias_opt [])
    as [[[[[[[[X M] N] gamma] beta] mean] rstd]|e] tr1] eqn:Hli;
    [|reflexivity].
  apply layer_init_ok_inv in Hli as (x & -> & ->).
  cbn [as_contiguous fresh_like].
  unfold bind at 2, empty_like, bind at 2, emit, ret.
  match goal with
  | |- _ = result_map get0 (fst (layer_norm_impl_out ?o ?m ?r ?X ns ?g ?b eps M N ?t)) =>
      rewrite (oblivious_layer_norm_impl_out o m r X ns g b eps M N t tr1)
  end.
  unfold bind, numel. cbn [sizes].
  destruct (layer_norm_impl_out _ _ _ _ _ _ _ _ _ _ tr1)
    as [[[[o m] r]|e] tr2]; reflexivity.
Qed.

(** ** What each path never does *)

Lemma emits_only_ret P {A} (a : A) : emits_only P (ret a).
Proof. intros tr. exists []. simpl. now rewrite app_nil_r. Qed.

Lemma emits_only_raise P {A} (e : Error) : emits_only P (@raise A e).
Proof. intros tr. exists []. simpl. now rewrite app_nil_r. Qed.

Lemma emits_only_lift P {A} (r : result A) : emits_only P (lift r).
Proof. intros tr. exists []. simpl. now rewrite app_nil_r. Qed.

Lemma emits_only_emit (P : Event -> bool) (e : Event) :
  P e = true -> emits_only P (emit e).
Proof. intros He tr. exists [e]. simpl. now rewrite He. Qed.

Lemma emits_only_bind P {A B} (m : Eff A) (f : A -> Eff B) :
  emits_only P m -> (forall a, emits_only P (f a)) -> emits_only P (bind m f).
Proof.
  intros Hm Hf tr. unfold bind.
  destruct (Hm tr) as (evs & E & HP). destruct (m tr) as [[a|e] tr1]; simpl in E.
  - destruct (Hf a tr1) as (evs' & E' & HP'). exists (evs ++ evs').
    rewrite E', E, app_assoc, forallb_app, HP, HP'. auto.
  - exists evs. auto.
Qed.

Lemma emits_only_expect_contiguous (P : Event -> bool) (t : Tensor) :
  (forall s, P (EvAlloc AllocContiguousCopy s) = true) ->
  emits_only P (expect_contiguous t).
Proof.
  intros HP. unfold expect_contiguous.
  destruct t as [x|]; [|apply emits_only_ret].
  destruct (is_contiguous x); [apply emits_only_ret|].
  apply emits_only_bind; [apply emits_only_emit, HP | intros _].
  apply emits_only_ret.
Qed.

Lemma emits_only_view `{K : Collaborators} (P : Event -> bool)
    (t : Tensor) (s : list Z) :
  (forall s', P (EvView s') = true) -> emits_only P (view t s).
Proof.
  intros HP. unfold view.
  apply emits_only_bind; [apply emits_only_emit, HP | intros _].
  destruct t as [x|]; [|apply emits_only_raise].
  apply emits_only_bind; [apply emits_only_lift | intros s'].
  destruct (_ || _); [apply emits_only_ret | apply emits_only_raise].
Qed.

Lemma emits_only_empty (P : Event -> bool) (M : Z) (X : Tensor) :
  (forall s, P (EvAlloc AllocEmpty s) = true) -> emits_only P (empty M X).
Proof.
  intros HP. unfold empty.
  destruct X as [x|]; [|apply emits_only_raise].
  destruct (M <? 0); [apply emits_only_raise|].
  apply emits_only_bind; [apply emits_only_emit, HP | intros _].
  apply emits_only_ret.
Qed.

Lemma emits_only_empty_like (P : Event -> bool) (t : Tensor) :
  (forall s, P (EvAlloc AllocEmptyLike s) = true) ->
  emits_only P (empty_like t).
Proof.
  intros HP. unfold empty_like.
  destruct t as [x|]; [|apply emits_only_raise].
  apply emits_only_bind; [apply emits_only_emit, HP | intros _].
  apply emits_only_ret.
Qed.

Lemma emits_only_zeros_like (P : Event -> bool) (t : Tensor) :
  (forall s, P (EvAlloc AllocZerosLike s) = true) ->
  emits_only P (zeros_like t).
Proof.
  intros HP. unfold zeros_like.
  destruct t as [x|]; [|apply emits_only_raise].
  apply emits_only_bind; [apply emits_only_emit, HP | intros _].
  apply emits_only_ret.
Qed.

Lemma emits_only_run P {A} (m : Eff A) :
  emits_only P m -> forallb P (snd (run m)) = true.
Proof.
  intros Hm. unfold run. destruct (Hm []) as (evs & -> & HP). exact HP.
Qed.

Lemma fallback_emits `{K : Collaborators} input ns weight_opt bias_opt eps :
  emits_only fallback_event
    (math_native_layer_norm input ns weight_opt bias_opt eps).
Proof.
  unfold math_native_layer_norm.
  apply emits_only_bind; [apply emits_only_lift | intros M_N].
  do 2 (apply emits_only_bind;
        [apply emits_only_expect_contiguous; reflexivity | intros ?]).
  apply emits_only_bind; [apply emits_only_view; reflexivity | intros ?].
  apply emits_only_bind; [apply emits_only_emit; reflexivity | intros _].
  apply emits_only_bind; [apply emits_only_view; reflexivity | intros ?].
  apply emits_only_bind.
  { unfold apply_affine.
    destruct (_ && _); [|destruct (defined _); [|destruct (defined _)]];
      try (apply emits_only_bind;
           [apply emits_only_emit; reflexivity | intros _]);
      apply emits_only_ret. }
  intros ?.
  do 2 (apply emits_only_bind; [apply emits_only_view; reflexivity | intros ?]).
  apply emits_only_ret.
Qed.

Lemma backward_emits `{K : Collaborators}
    dY input ns mean rstd weight_opt bias_opt mask :
  emits_only backward_event
    (layer_norm_backward dY input ns mean rstd weight_opt bias_opt mask).
Proof.
  unfold layer_norm_backward.
  apply emits_only_bind; [apply emits_only_lift | intros M_N].
  do 3 (apply emits_only_bind;
        [apply emits_only_expect_contiguous; reflexivity | intros ?]).
  apply emits_only_bind.
  { destruct (mask_at mask 0);
      [apply emits_only_empty_like; reflexivity | apply emits_only_ret]. }
  intros ?. apply emits_only_bind.
  { destruct (mask_at mask 1); [|apply emits_only_ret].
    destruct (0 <? fst M_N);
      [apply emits_only_empty_like | apply emits_only_zeros_like];
      reflexivity. }
  intros ?. apply emits_only_bind.
  { destruct (mask_at mask 2); [|apply emits_only_ret].
    destruct (0 <? fst M_N);
      [apply emits_only_empty_like | apply emits_only_zeros_like];
      reflexivity. }
  intros ?. destruct (0 <? fst M_N); [|apply emits_only_ret].
  destruct dY as [dy|]; [|apply emits_only_raise].
  apply emits_only_bind; [apply emits_only_emit; reflexivity | intros _].
  apply emits_only_ret.
Qed.

Lemma forward_emits `{K : Collaborators} input ns weight_opt bias_opt eps :
  emits_only forward_event (_layer_norm input ns weight_opt bias_opt eps).
Proof.
  unfold _layer_norm, layer_init.
  apply emits_only_bind.
  { apply emits_only_bind;
      [apply emits_only_expect_contiguous; reflexivity | intros ?].
    apply emits_only_bind; [apply emits_only_lift | intros ?].
    do 2 (apply emits_only_bind;
          [apply emits_only_expect_contiguous; reflexivity | intros ?]).
    do 2 (apply emits_only_bind;
          [apply emits_only_empty; reflexivity | intros ?]).
    apply emits_only_ret. }
  intros [[[[[[X M] N] gamma] beta] mean] rstd].
  apply emits_only_bind; [apply emits_only_empty_like; reflexivity | intros Y].
  unfold layer_norm_impl_out.
  destruct (M <=? 0); [apply emits_only_ret|].
  destruct X as [x|]; [|apply emits_only_raise].
  apply emits_only_bind; [apply emits_only_emit; reflexivity | intros _].
  destruct (LayerNormKernel _ _ _ _ _ _ _ _) as [[o m] r].
  do 2 (apply emits_only_bind; [apply emits_only_view; reflexivity | intros ?]).
  apply emits_only_ret.
Qed.

(** Whatever the input is and however the call ends, the fallback path
    allocates nothing but contiguity copies and invokes neither layer-norm
    kernel; the backward path reshapes nothing and invokes neither the
    forward kernel, nor batch norm, nor an elementwise operation; the
    forward path never zero-fills a buffer and invokes neither batch norm,
    nor an elementwise operation, nor the backward kernel. *)
Theorem paths_event_discipline
    (K : Collaborators) (dY input : Tensor) (ns : list Z) (mean rstd : Tensor)
    (weight_opt bias_opt : option Tensor) (eps : double) (mask : grad_mask) :
  forallb fallback_event
    (snd (run (math_native_layer_norm input ns weight_opt bias_opt eps)))
    = true /\
  forallb backward_event
    (snd (run (layer_norm_backward dY input ns mean rstd
                 weight_opt bias_opt mask))) = true /\
  forallb forward_event
    (snd (run (_layer_norm input ns weight_opt bias_opt eps))) = true.
Proof.
  split; [apply emits_only_run, fallback_emits|].
  split; [apply emits_only_run, backward_emits|].
  apply emits_only_run, forward_emits.
Qed.

(** ** Further properties of the backward path *)

(** A validated scale or bias has the normalized shape. *)
Lemma check_affine_shapes input ns weight bias M N :
  _check_layer_norm_inputs input ns weight bias = Ok (M, N) ->
  (forall w, weight = Some w -> sizes w = ns) /\
  (forall b, bias = Some b -> sizes b = ns).
Proof.
  unfold _check_layer_norm_inputs.
  destruct input as [x|]; [|discriminate].
  destruct (_ && _ && _ && _) eqn:E; [|discriminate].
  intros _. repeat (apply andb_true_iff in E as [E ?]).
  split; intros t ->; now apply shape_eqb_eq.
Qed.

Lemma same_meta_some (a : TensorImpl) (t : Tensor) :
  same_meta (Some a) t ->
  exists g, t = Some g /\ sizes g = sizes a /\
            is_contiguous g = is_contiguous a /\ device g = device a.
Proof.
  destruct t as [g|]; simpl; [|tauto].
  intros (Hs & Hc & Hd). exists g. auto.
Qed.

Lemma same_meta_none (t : Tensor) : same_meta None t -> t = None.
Proof. destruct t; simpl; tauto. Qed.

(** Whenever the backward call returns, with kernels that fill their
    buffers in place, every gradient it hands back is contiguous and has
    the shape of what it is the gradient of: the input gradient the shape
    of the input, the scale and bias gradients the normalized shape,
    which is the shape of the scale and of the bias. *)
Theorem backward_gradient_shapes
    (K : Collaborators) (HK : KernelContract K)
    (dY : Tensor) (x : TensorImpl) (ns : list Z) (mean rstd : Tensor)
    (weight_opt bias_opt : option Tensor) (mask : grad_mask)
    (dX dgamma dbeta : Tensor) (tr : Trace) :
  run (layer_norm_backward dY (Some x) ns mean rstd weight_opt bias_opt mask) =
    (Ok (dX, dgamma, dbeta), tr) ->
  (forall g, dX = Some g -> sizes g = sizes x /\ is_contiguous g = true) /\
  (forall g, dgamma = Some g ->
     sizes g = ns /\ is_contiguous g = true /\
     sizes_of (borrow_from_optional_tensor weight_opt) = ns) /\
  (forall g, dbeta = Some g ->
     sizes g = ns /\ is_contiguous g = true /\
     sizes_of (borrow_from_optional_tensor bias_opt) = ns).
Proof.
  unfold run, layer_norm_backward.
  unfold bind at 1, lift.
  destruct (_check_layer_norm_inputs _ _ _ _) as [[M N]|e] eqn:Hchk;
    [|discriminate].
  apply check_affine_shapes in Hchk as [Hw Hb].
  cbn [fst snd].
  set (weight := borrow_from_optional_tensor weight_opt) in *.
  set (bias := borrow_from_optional_tensor bias_opt) in *.
  clearbody weight bias.
  repeat (unfold bind at 1; rewrite expect_contiguous_run).
  destruct mask as [[[|] [|]] [|]]; cbn [mask_at fst snd];
  destruct weight as [w|], bias as [b|];
  try (specialize (Hw _ eq_refl)); try (specialize (Hb _ eq_refl));
  destruct (0 <? M) eqn:HM; destruct dY as [dy|];
  cbn [as_contiguous empty_like zeros_like];
  unfold bind, emit, ret, raise; cbn [defined];
  intros Hrun; inversion Hrun; subst; clear Hrun;
  try match goal with
  | H : LayerNormBackwardKernel ?d ?a ?bb ?c ?e ?f ?m ?n ?bufs = _ |- _ =>
      let Ha := fresh "Ha" in
      let Hb' := fresh "Hb" in
      let Hc := fresh "Hc" in
      pose proof (backward_kernel_in_place d a bb c e f m n bufs)
        as (Ha & Hb' & Hc);
      rewrite H in Ha, Hb', Hc; cbn [fst snd] in Ha, Hb', Hc;
      first [apply same_meta_some in Ha as (? & -> & ? & ? & _)
            | apply same_meta_none in Ha as ->];
      first [apply same_meta_some in Hb' as (? & -> & ? & ? & _)
            | apply same_meta_none in Hb' as ->];
      first [apply same_meta_some in Hc as (? & -> & ? & ? & _)
            | apply same_meta_none in Hc as ->];
      clear H
  end;
  cbn [sizes is_contiguous sizes_of] in *;
  (split; [|split]);
  (let g' := fresh "g" in
   let Hg := fresh "Hg" in
   intros g' Hg; inversion Hg; subst;
   cbn [sizes is_contiguous]; repeat split; congruence).
Qed.

Lemma backward_gradient_shapes_witness :
  (forall g, zeros [2; 3] CPU = Some g ->
     sizes g = [2; 3] /\ is_contiguous g = true) /\
  (forall g, zeros [3] CPU = Some g ->
     sizes g = [3] /\ is_contiguous g = true /\
     sizes_of (tensor [3] false) = [3]) /\
  (forall g, zeros [3] CPU = Some g ->
     sizes g = [3] /\ is_contiguous g = true /\
     sizes_of (tensor [3] true) = [3]).
Proof.
  exact (backward_gradient_shapes ref_collaborators ref_contract
           (tensor [2; 3] true) (mkTensor [2; 3] false CPU (repeat (Bits 1) 6))
           [3] None None (Some (tensor [3] false)) (Some (tensor [3] true))
           (true, true, true)
           (zeros [2; 3] CPU) (zeros [3] CPU) (zeros [3] CPU)
           [EvAlloc AllocContiguousCopy [2; 3]; EvAlloc AllocContiguousCopy [3];
            EvAlloc AllocEmptyLike [2; 3]; EvAlloc AllocEmptyLike [3];
            EvAlloc AllocEmptyLike [3];
            EvLayerNormBackwardKernel 2 3 true true true]
           eq_refl).
Defined.

(** For every validated backward call with [M > 0] that returns, the trace
    is the contiguity copies, then one [empty_like] per requested gradient
    (input, scale, bias, in this order) and last the single kernel
    invocation: nothing is zero-filled, and every buffer is allocated
    before the kernel runs. *)
Theorem backward_nondegenerate_trace
    (K : Collaborators)
    (dY : Tensor) (x : TensorImpl) (ns : list Z) (mean rstd : Tensor)
    (weight_opt bias_opt : option Tensor) (mask : grad_mask) (M N : Z)
    (v : Tensor * Tensor * Tensor) (tr : Trace) :
  _check_layer_norm_inputs (Some x) ns
    (borrow_from_optional_tensor weight_opt)
    (borrow_from_optional_tensor bias_opt) = Ok (M, N) ->
  0 < M ->
  run (layer_norm_backward dY (Some x) ns mean rstd weight_opt bias_opt mask) =
    (Ok v, tr) ->
  tr = copy_events (Some x) ++
       copy_events (borrow_from_optional_tensor weight_opt) ++
       copy_events (borrow_from_optional_tensor bias_opt) ++
       requested (mask_at mask 0) AllocEmptyLike (Some x) ++
       requested (mask_at mask 1) AllocEmptyLike
         (borrow_from_optional_tensor weight_opt) ++
       requested (mask_at mask 2) AllocEmptyLike
         (borrow_from_optional_tensor bias_opt) ++
       [EvLayerNormBackwardKernel M N
          (mask_at mask 0) (mask_at mask 1) (mask_at mask 2)].
Proof.
  intros Hchk HM. apply Z.ltb_lt in HM.
  unfold run, layer_norm_backward.
  unfold bind at 1, lift. rewrite Hchk. cbn [fst snd]. clear Hchk.
  set (weight := borrow_from_optional_tensor weight_opt).
  set (bias := borrow_from_optional_tensor bias_opt).
  clearbody weight bias. rewrite HM.
  repeat (unfold bind at 1; rewrite expect_contiguous_run).
  destruct mask as [[[|] [|]] [|]]; cbn [mask_at fst snd];
  destruct weight as [w|], bias as [b|]; destruct dY as [dy|];
  cbn [as_contiguous empty_like];
  unfold bind, emit, ret, raise; cbn [defined];
  intros Hrun; inversion Hrun; subst; clear Hrun;
  unfold requested; cbn [sizes_of sizes];
  rewrite ?app_nil_r, <- ?app_assoc; reflexivity.
Qed.

Lemma backward_nondegenerate_trace_witness :
  [EvAlloc AllocContiguousCopy [2; 3]; EvAlloc AllocEmptyLike [2; 3];
   EvAlloc AllocEmptyLike [3];
   EvLayerNormBackwardKernel 2 3 true false true] =
  copy_events (tensor [2; 3] false) ++ copy_events None ++
  copy_events (tensor [3] true) ++
  requested true AllocEmptyLike (tensor [2; 3] false) ++
  requested false AllocEmptyLike None ++
  requested true AllocEmptyLike (tensor [3] true) ++
  [EvLayerNormBackwardKernel 2 3 true false true].
Proof.
  exact (backward_nondegenerate_trace ref_collaborators
           (tensor [2; 3] true) (mkTensor [2; 3] false CPU (repeat (Bits 1) 6))
           [3] None None None (Some (tensor [3] true)) (true, false, true)
           2 3 (zeros [2; 3] CPU, None, zeros [3] CPU) _
           eq_refl eq_refl eq_refl).
Defined.

(** The orchestrator itself never inspects the forward statistics it is
    handed; they only reach the kernel.  For any two pairs of [mean] and
    [rstd], defined or not and of any shape, the backward call makes the
    same allocations and the same kernel invocation, and whenever the
    kernel is not invoked (validation fails, an allocation raises, or
    [M <= 0]) the two calls end identically. *)
Theorem backward_ignores_statistics
    (K : Collaborators)
    (dY input : Tensor) (ns : list Z) (mean rstd mean' rstd' : Tensor)
    (weight_opt bias_opt : option Tensor) (mask : grad_mask) :
  snd (run (layer_norm_backward dY input ns mean rstd
              weight_opt bias_opt mask)) =
  snd (run (layer_norm_backward dY input ns mean' rstd'
              weight_opt bias_opt mask)) /\
  (filter is_backward_kernel
     (snd (run (layer_norm_backward dY input ns mean rstd
                  weight_opt bias_opt mask))) = [] ->
   run (layer_norm_backward dY input ns mean rstd weight_opt bias_opt mask) =
   run (layer_norm_backward dY input ns mean' rstd' weight_opt bias_opt mask)).
Proof.
  unfold run, layer_norm_backward.
  unfold bind at 1 3 5 7 9, lift.
  destruct (_check_layer_norm_inputs _ _ _ _) as [[M N]|e];
    [|split; reflexivity].
  cbn [fst snd].
  set (weight := borrow_from_optional_tensor weight_opt).
  set (bias := borrow_from_optional_tensor bias_opt).
  clearbody weight bias.
  unfold bind. rewrite !expect_contiguous_run.
  destruct mask as [[[|] [|]] [|]]; cbn [mask_at fst snd];
  destruct input as [x|], weight as [w|], bias as [b|];
  destruct (0 <? M); destruct dY as [dy|];
  cbn [as_contiguous empty_like zeros_like];
  unfold bind, emit, ret, raise; cbn [fst snd];
  (split; [reflexivity|]);
  intros Hnone;
  first [ reflexivity
        | exfalso; revert Hnone;
          rewrite ?filter_app, ?copy_events_no_backward_kernel,
            ?conditional_copy_no_backward_kernel;
          simpl; discriminate ].
Qed.

Lemma backward_ignores_statistics_witness :
  snd (run (layer_norm_backward (K := ref_collaborators)
              (tensor [0; 3] true) (tensor [0; 3] true) [3]
              (tensor [0] true) (tensor [0] true)
              (Some (tensor [3] true)) None (true, true, false))) =
  snd (run (layer_norm_backward (K := ref_collaborators)
              (tensor [0; 3] true) (tensor [0; 3] true) [3] None None
              (Some (tensor [3] true)) None (true, true, false))) /\
  run (layer_norm_backward (K := ref_collaborators)
         (tensor [0; 3] true) (tensor [0; 3] true) [3]
         (tensor [0] true) (tensor [0] true)
         (Some (tensor [3] true)) None (true, true, false)) =
  run (layer_norm_backward (K := ref_collaborators)
         (tensor [0; 3] true) (tensor [0; 3] true) [3] None None
         (Some (tensor [3] true)) None (true, true, false)).
Proof.
  split.
  - exact (proj1 (backward_ignores_statistics ref_collaborators
                    (tensor [0; 3] true) (tensor [0; 3] true) [3]
                    (tensor [0] true) (tensor [0] true) None None
                    (Some (tensor [3] true)) None (true, true, false))).
  - exact (proj2 (backward_ignores_statistics ref_collaborators
                    (tensor [0; 3] true) (tensor [0; 3] true) [3]
                    (tensor [0] true) (tensor [0] true) None None
                    (Some (tensor [3] true)) None (true, true, false))
             eq_refl).
Defined.

(** The values held by the bias never reach the backward computation: two
    calls that differ only in a bias of the same shape and device return
    the same gradients, or raise the same error. *)
Theorem backward_ignores_bias_values
    (K : Collaborators)
    (dY input : Tensor) (ns : list Z) (mean rstd : Tensor)
    (weight_opt : option Tensor) (b1 b2 : TensorImpl) (mask : grad_mask) :
  sizes b1 = sizes b2 ->
  device b1 = device b2 ->
  fst (run (layer_norm_backward dY input ns mean rstd
              weight_opt (Some (Some b1)) mask)) =
  fst (run (layer_norm_backward dY input ns mean rstd
              weight_opt (Some (Some b2)) mask)).
Proof.
  destruct b1 as [s1 c1 d1 data1], b2 as [s2 c2 d2 data2].
  cbn [sizes device]. intros <- <-.
  unfold run, layer_norm_backward.
  cbn [borrow_from_optional_tensor].
  unfold bind at 1 8, lift.
  assert (Hchk : forall c data c' data',
    _check_layer_norm_inputs input ns
      (borrow_from_optional_tensor weight_opt)
      (Some (mkTensor s1 c d1 data)) =
    _check_layer_norm_inputs input ns
      (borrow_from_optional_tensor weight_opt)
      (Some (mkTensor s1 c' d1 data'))) by reflexivity.
  rewrite (Hchk c2 data2 c1 data1).
  destruct (_check_layer_norm_inputs _ _ _ _) as [[M N]|e]; [|reflexivity].
  cbn [fst snd].
  set (weight := borrow_from_optional_tensor weight_opt).
  clearbody weight.
  unfold bind. rewrite !expect_contiguous_run.
  destruct mask as [[[|] [|]] [|]]; cbn [mask_at fst snd];
  destruct input as [x|], weight as [w|];
  destruct (0 <? M); destruct dY as [dy|];
  cbn [as_contiguous empty_like zeros_like];
  unfold bind, emit, ret, raise, numel; cbn [sizes device fst]; reflexivity.
Qed.

Lemma backward_ignores_bias_values_witness :
  fst (run (layer_norm_backward (K := ref_collaborators)
              (tensor [2; 3] true) (tensor [2; 3] true) [3] None None
              None (Some (Some (mkTensor [3] true CPU [Bits 1; Bits 2; Bits 3])))
              (true, false, true))) =
  fst (run (layer_norm_backward (K := ref_collaborators)
              (tensor [2; 3] true) (tensor [2; 3] true) [3] None None
              None (Some (Some (mkTensor [3] false CPU [Bits 7; Bits 8; Bits 9])))
              (true, false, true))).
Proof.
  exact (backward_ignores_bias_values ref_collaborators
           (tensor [2; 3] true) (tensor [2; 3] true) [3] None None None
           (mkTensor [3] true CPU [Bits 1; Bits 2; Bits 3])
           (mkTensor [3] false CPU [Bits 7; Bits 8; Bits 9])
           (true, false, true) eq_refl eq_refl).
Defined.

(** ** Further properties of the fallback path *)

(** The anatomy of a run of the fallback path that returns. *)
Lemma fallback_ok_inv
    (K : Collaborators) (x : TensorImpl) (ns : list Z)
    (weight_opt bias_opt : option Tensor) (eps : double) (M N : Z)
    (out mean rstd : Tensor) (tr : Trace) :
  wf_shape (sizes x) = true ->
  _check_layer_norm_inputs (Some x) ns
    (borrow_from_optional_tensor weight_opt)
    (borrow_from_optional_tensor bias_opt) = Ok (M, N) ->
  run (math_native_layer_norm (Some x) ns weight_opt bias_opt eps) =
    (Ok (out, mean, rstd), tr) ->
  exists o m r,
    native_batch_norm
      (Some (mkTensor [1; M; N] (is_contiguous x) (device x) (data x)))
      None None None None true 0 eps = (Some o, Some m, Some r) /\
    0 < M /\
    numel o = numel x /\ numel m = M /\ numel r = M /\
    mean = Some (mkTensor (broadcast_stat_shape (sizes x) ns)
                   (is_contiguous m) (device m) (data m)) /\
    rstd = Some (mkTensor (broadcast_stat_shape (sizes x) ns)
                   (is_contiguous r) (device r) (data r)) /\
    fst (apply_affine
           (Some (mkTensor (sizes x) (is_contiguous o) (device o) (data o)))
           (borrow_from_optional_tensor weight_opt)
           (borrow_from_optional_tensor bias_opt) []) = Ok out.
Proof.
  intros Hwf Hchk.
  pose proof (check_M_nonneg _ _ _ _ _ _ Hwf Hchk) as HM0.
  pose proof (check_M_times_N _ _ _ _ _ _ x Hchk eq_refl) as Hnumel.
  destruct (check_layer_norm_inputs_ok _ _ _ _ _ _ Hchk)
    as (x' & Ex & Hle & _ & HMeq & _).
  inversion Ex; subst x'; clear Ex.
  set (weight := borrow_from_optional_tensor weight_opt) in *.
  set (bias := borrow_from_optional_tensor bias_opt) in *.
  unfold run, math_native_layer_norm. fold weight. fold bias.
  unfold bind at 1, lift. rewrite Hchk. cbn [fst snd].
  unfold bind at 1. rewrite expect_contiguous_run.
  unfold bind at 1. rewrite expect_contiguous_run.
  unfold bind at 1. rewrite (view_batch x M N _ HM0 Hnumel).
  destruct (Z.eqb_spec M 0) as [?|HMne]; [discriminate|].
  destruct (is_contiguous x || stride_viewable x [1; M; N]); [|discriminate].
  unfold bind at 1, emit. cbn [sizes_of sizes].
  fold (axis_of (sizes x) ns). rewrite (stat_shape_of_broadcast _ _ Hle).
  destruct (native_batch_norm _ None None None None true 0 eps)
    as [[bo bm] br].
  cbn [fst snd]. intros Hrun.
  apply bind_ok_inv in Hrun as (o1 & tr1 & Hv1 & Hrun).
  apply (view_ok_inv _ _ _ _ _ Hwf) in Hv1 as (o & -> & -> & -> & Hno).
  apply bind_ok_inv in Hrun as (o2 & tr2 & Ha & Hrun).
  apply bind_ok_inv in Hrun as (m1 & tr3 & Hv2 & Hrun).
  apply (view_ok_inv _ _ _ _ _ (wf_shape_broadcast _ ns Hwf)) in Hv2
    as (m & -> & -> & -> & Hnm).
  apply bind_ok_inv in Hrun as (r1 & tr4 & Hv3 & Hrun).
  apply (view_ok_inv _ _ _ _ _ (wf_shape_broadcast _ ns Hwf)) in Hv3
    as (r & -> & -> & -> & Hnr).
  unfold ret in Hrun. inversion Hrun; subst out mean rstd tr; clear Hrun.
  rewrite multiply_integers_broadcast, <- HMeq in Hnm, Hnr.
  exists o, m, r. split; [reflexivity|].
  split; [lia|]. fold (numel x) in Hno.
  repeat split; auto.
  rewrite apply_affine_run in Ha |- *. inversion Ha. reflexivity.
Qed.

(** Whenever the fallback path returns on a validated input, its mean and
    rstd have the shape [input.shape[0:axis]] followed by ones, exactly as
    on the direct path; without scale and bias its output has the shape of
    the input; and [M] is positive, so an input with an empty batch never
    gets a result from this path. *)
Theorem fallback_result_shapes
    (K : Collaborators) (x : TensorImpl) (ns : list Z)
    (weight_opt bias_opt : option Tensor) (eps : double) (M N : Z)
    (out mean rstd : Tensor) (tr : Trace) :
  wf_shape (sizes x) = true ->
  _check_layer_norm_inputs (Some x) ns
    (borrow_from_optional_tensor weight_opt)
    (borrow_from_optional_tensor bias_opt) = Ok (M, N) ->
  run (math_native_layer_norm (Some x) ns weight_opt bias_opt eps) =
    (Ok (out, mean, rstd), tr) ->
  0 < M /\
  sizes_of mean = broadcast_stat_shape (sizes x) ns /\
  sizes_of rstd = broadcast_stat_shape (sizes x) ns /\
  defined mean = true /\ defined rstd = true /\
  (defined (borrow_from_optional_tensor weight_opt) = false ->
   defined (borrow_from_optional_tensor bias_opt) = false ->
   sizes_of out = sizes x).
Proof.
  intros Hwf Hchk Hrun.
  destruct (fallback_ok_inv K x ns weight_opt bias_opt eps M N out mean rstd
              tr Hwf Hchk Hrun)
    as (o & m & r & _ & HM & _ & _ & _ & -> & -> & Hout).
  repeat split; auto.
  intros Hw Hb. rewrite apply_affine_run, Hw, Hb in Hout.
  inversion Hout. reflexivity.
Qed.

Lemma fallback_result_shapes_witness :
  0 < 2 /\
  sizes_of (zeros [2; 1] CPU) = [2; 1] /\
  sizes_of (zeros [2; 1] CPU) = [2; 1] /\
  defined (zeros [2; 1] CPU) = true /\ defined (zeros [2; 1] CPU) = true /\
  (false = false -> false = false -> sizes_of (zeros [2; 3] CPU) = [2; 3]).
Proof.
  exact (fallback_result_shapes ref_collaborators
           (mkTensor [2; 3] true CPU (repeat (Bits 1) 6)) [3] None None 0 2 3
           (zeros [2; 3] CPU) (zeros [2; 1] CPU) (zeros [2; 1] CPU)
           [EvView [1; 2; -1]; EvBatchNorm [1; 2; 3] false false true;
            EvView [2; 3]; EvView [2; 1]; EvView [2; 1]]
           eq_refl eq_refl eq_refl).
Defined.

(** On the fallback path scale and bias only touch the output: two calls
    on the same input and normalized shape that both return give the same
    mean and the same rstd, whatever scale and bias each was passed. *)
Theorem fallback_statistics_ignore_affine
    (K : Collaborators) (x : TensorImpl) (ns : list Z)
    (weight_opt bias_opt weight_opt' bias_opt' : option Tensor)
    (eps : double)
    (out mean rstd out' mean' rstd' : Tensor) (tr tr' : Trace) :
  wf_shape (sizes x) = true ->
  run (math_native_layer_norm (Some x) ns weight_opt bias_opt eps) =
    (Ok (out, mean, rstd), tr) ->
  run (math_native_layer_norm (Some x) ns weight_opt' bias_opt' eps) =
    (Ok (out', mean', rstd'), tr') ->
  mean = mean' /\ rstd = rstd'.
Proof.
  intros Hwf Hrun Hrun'.
  destruct (_check_layer_norm_inputs (Some x) ns
              (borrow_from_optional_tensor weight_opt)
              (borrow_from_optional_tensor bias_opt)) as [[M N]|e] eqn:Hchk.
  2:{ rewrite (fallback_rejects_first K _ _ _ _ _ _ Hchk) in Hrun.
      discriminate Hrun. }
  destruct (_check_layer_norm_inputs (Some x) ns
              (borrow_from_optional_tensor weight_opt')
              (borrow_from_optional_tensor bias_opt')) as [[M' N']|e] eqn:Hchk'.
  2:{ rewrite (fallback_rejects_first K _ _ _ _ _ _ Hchk') in Hrun'.
      discriminate Hrun'. }
  assert (HMN : M = M' /\ N = N').
  { apply check_layer_norm_inputs_ok in Hchk as (y & E & _ & _ & -> & ->).
    apply check_layer_norm_inputs_ok in Hchk' as (y' & E' & _ & _ & -> & ->).
    inversion E; inversion E'; subst. auto. }
  destruct HMN as [<- <-].
  destruct (fallback_ok_inv K x ns _ _ eps M N _ _ _ _ Hwf Hchk Hrun)
    as (o & m & r & Hbn & _ & _ & _ & _ & -> & -> & _).
  destruct (fallback_ok_inv K x ns _ _ eps M N _ _ _ _ Hwf Hchk' Hrun')
    as (o' & m' & r' & Hbn' & _ & _ & _ & _ & -> & -> & _).
  rewrite Hbn in Hbn'. inversion Hbn'; subst. auto.
Qed.

Lemma fallback_statistics_ignore_affine_witness :
  zeros [2; 1] CPU = zeros [2; 1] CPU /\ zeros [2; 1] CPU = zeros [2; 1] CPU.
Proof.
  exact (fallback_statistics_ignore_affine ref_collaborators
           (mkTensor [2; 3] true CPU (repeat (Bits 1) 6)) [3]
           None None (Some (tensor [3] true)) (Some (tensor [3] true)) 0
           (zeros [2; 3] CPU) (zeros [2; 1] CPU) (zeros [2; 1] CPU)
           (zeros [2; 3] CPU) (zeros [2; 1] CPU) (zeros [2; 1] CPU)
           _ _ eq_refl eq_refl eq_refl).
Defined.

(** The whole run of the fallback path on a valid contiguous input with
    [M > 0], for a batch norm that keeps its shape contract. *)
Lemma fallback_nondegenerate_full
    (K : Collaborators) (HB : batch_norm_shapes K)
    (x : TensorImpl) (ns : list Z) (weight_opt bias_opt : option Tensor)
    (eps : double) (M N : Z) :
  wf_shape (sizes x) = true ->
  _check_layer_norm_inputs (Some x) ns
    (borrow_from_optional_tensor weight_opt)
    (borrow_from_optional_tensor bias_opt) = Ok (M, N) ->
  0 < M ->
  is_contiguous x = true ->
  exists out mean rstd,
    run (math_native_layer_norm (Some x) ns weight_opt bias_opt eps) =
      (Ok (out, Some mean, Some rstd),
       fallback_prefix (Some x) (borrow_from_optional_tensor weight_opt) M N ++
       affine_events (borrow_from_optional_tensor weight_opt)
                     (borrow_from_optional_tensor bias_opt) ++
       [EvView (broadcast_stat_shape (sizes x) ns);
        EvView (broadcast_stat_shape (sizes x) ns)]) /\
    sizes mean = broadcast_stat_shape (sizes x) ns /\
    sizes rstd = broadcast_stat_shape (sizes x) ns /\
    (defined (borrow_from_optional_tensor weight_opt) = false ->
     defined (borrow_from_optional_tensor bias_opt) = false ->
     sizes_of out = sizes x).
Proof.
  intros Hwf Hchk HM Hc.
  pose proof (check_M_times_N _ _ _ _ _ _ x Hchk eq_refl) as Hnumel.
  destruct (check_layer_norm_inputs_ok _ _ _ _ _ _ Hchk)
    as (x' & Ex & Hle & _ & HMeq & _).
  inversion Ex; subst x'; clear Ex.
  set (weight := borrow_from_optional_tensor weight_opt) in *.
  set (bias := borrow_from_optional_tensor bias_opt) in *.
  unfold run, math_native_layer_norm. fold weight. fold bias.
  unfold bind at 1, lift. rewrite Hchk. cbn [fst snd].
  unfold bind at 1. rewrite expect_contiguous_run.
  unfold bind at 1. rewrite expect_contiguous_run.
  unfold bind at 1. rewrite (view_batch x M N _) by (lia || exact Hnumel).
  destruct (Z.eqb_spec M 0) as [?|_]; [lia|].
  rewrite Hc. cbn [orb].
  unfold bind at 1, emit. cbn [sizes_of sizes].
  fold (axis_of (sizes x) ns). rewrite (stat_shape_of_broadcast _ _ Hle).
  destruct (HB (mkTensor [1; M; N] true (device x) (data x)) M N eps eq_refl)
    as (o & m & r & Hbn & Hno & Hco & Hnm & Hcm & Hnr & Hcr).
  rewrite Hbn. cbn [fst snd].
  assert (Hnx : multiply_integers (sizes x) = numel o).
  { rewrite Hno. unfold numel. cbn [sizes multiply_integers fold_right].
    fold (multiply_integers (sizes x)). fold (numel x). lia. }
  assert (Hst : forall y, numel y = M ->
            multiply_integers (broadcast_stat_shape (sizes x) ns) = numel y).
  { intros y Hy. rewrite multiply_integers_broadcast, <- HMeq. auto. }
  unfold bind at 1. rewrite (view_exact o _ _ Hco Hwf Hnx).
  unfold bind at 1. rewrite apply_affine_run.
  unfold bind at 1.
  rewrite (view_exact m _ _ Hcm (wf_shape_broadcast _ ns Hwf) (Hst _ Hnm)).
  unfold bind at 1.
  rewrite (view_exact r _ _ Hcr (wf_shape_broadcast _ ns Hwf) (Hst _ Hnr)).
  unfold ret. do 3 eexists. split.
  - unfold fallback_prefix. cbn [sizes_of].
    rewrite app_nil_l, <- !app_assoc. reflexivity.
  - cbn [sizes]. repeat split.
    intros Hw Hb. rewrite Hw, Hb. reflexivity.
Qed.

Lemma ref_batch_norm_shapes : batch_norm_shapes ref_collaborators.
Proof.
  intros [s c d dat] C L eps Hs. cbn [sizes] in Hs. subst s.
  do 3 eexists. split; [reflexivity|].
  unfold numel. cbn [sizes is_contiguous nth multiply_integers fold_right].
  repeat split; ring.
Defined.

(** With a batch norm that keeps its shape contract, the fallback path
    returns on every valid contiguous input with [M > 0], also when
    [N = 0]: all its reshapes succeed, the statistics have the
    broadcasting shape, and the trace is the contiguity copy of the scale
    if it needs one, the reshape, batch norm, the reshape back, at most
    one elementwise operation and the two statistic reshapes. *)
Theorem fallback_returns
    (K : Collaborators) (HB : batch_norm_shapes K)
    (x : TensorImpl) (ns : list Z) (weight_opt bias_opt : option Tensor)
    (eps : double) (M N : Z) :
  wf_shape (sizes x) = true ->
  _check_layer_norm_inputs (Some x) ns
    (borrow_from_optional_tensor weight_opt)
    (borrow_from_optional_tensor bias_opt) = Ok (M, N) ->
  0 < M ->
  is_contiguous x = true ->
  exists out mean rstd,
    run (math_native_layer_norm (Some x) ns weight_opt bias_opt eps) =
      (Ok (out, Some mean, Some rstd),
       copy_events (borrow_from_optional_tensor weight_opt) ++
       [EvView [1; M; -1]; EvBatchNorm [1; M; N] false false true;
        EvView (sizes x)] ++
       affine_events (borrow_from_optional_tensor weight_opt)
                     (borrow_from_optional_tensor bias_opt) ++
       [EvView (broadcast_stat_shape (sizes x) ns);
        EvView (broadcast_stat_shape (sizes x) ns)]) /\
    sizes mean = broadcast_stat_shape (sizes x) ns /\
    sizes rstd = broadcast_stat_shape (sizes x) ns.
Proof.
  intros Hwf Hchk HM Hc.
  destruct (fallback_nondegenerate_full K HB x ns weight_opt bias_opt eps
              M N Hwf Hchk HM Hc)
    as (out & mean & rstd & Hrun & Hm & Hr & _).
  exists out, mean, rstd. split; [|auto].
  rewrite Hrun. unfold fallback_prefix. cbn [copy_events sizes_of].
  rewrite Hc, app_nil_l, <- !app_assoc. reflexivity.
Qed.

Lemma fallback_returns_witness :
  exists out mean rstd,
    run (math_native_layer_norm (K := ref_collaborators)
           (tensor [2; 0] true) [0] (Some (tensor [0] false)) None 0) =
      (Ok (out, Some mean, Some rstd),
       [EvAlloc AllocContiguousCopy [0]; EvView [1; 2; -1];
        EvBatchNorm [1; 2; 0] false false true; EvView [2; 0]; EvMul;
        EvView [2; 1]; EvView [2; 1]]) /\
    sizes mean = [2; 1] /\ sizes rstd = [2; 1].
Proof.
  exact (fallback_returns ref_collaborators ref_batch_norm_shapes
           (mkTensor [2; 0] true CPU []) [0] (Some (tensor [0] false)) None 0
           2 0 eq_refl eq_refl eq_refl eq_refl).
Defined.

(** The two forward paths agree on shapes: on every valid contiguous input
    with [M > 0], with kernels that fill their buffers in place and a
    batch norm that keeps its shape contract, both [_layer_norm] and
    [math_native_layer_norm] return, their means have the same shape,
    their rstds have the same shape, and without scale and bias so have
    their outputs. *)
Theorem forward_paths_agree_on_shapes
    (K : Collaborators) (HK : KernelContract K) (HB : batch_norm_shapes K)
    (x : TensorImpl) (ns : list Z) (weight_opt bias_opt : option Tensor)
    (eps : double) (M N : Z) :
  wf_shape (sizes x) = true ->
  _check_layer_norm_inputs (Some x) ns
    (borrow_from_optional_tensor weight_opt)
    (borrow_from_optional_tensor bias_opt) = Ok (M, N) ->
  0 < M ->
  is_contiguous x = true ->
  exists Y mean rstd tr out' mean' rstd' tr',
    run (_layer_norm (Some x) ns weight_opt bias_opt eps) =
      (Ok (Y, mean, rstd), tr) /\
    run (math_native_layer_norm (Some x) ns weight_opt bias_opt eps) =
      (Ok (out', mean', rstd'), tr') /\
    sizes_of mean = sizes_of mean' /\
    sizes_of rstd = sizes_of rstd' /\
    (defined (borrow_from_optional_tensor weight_opt) = false ->
     defined (borrow_from_optional_tensor bias_opt) = false ->
     sizes_of Y = sizes_of out').
Proof.
  intros Hwf Hchk HM Hc.
  destruct (forward_nondegenerate_full K HK x ns weight_opt bias_opt eps
              M N Hwf Hchk HM)
    as (Y & mean & rstd & Hrun & HsY & _ & _ & Hm & Hr).
  destruct (fallback_nondegenerate_full K HB x ns weight_opt bias_opt eps
              M N Hwf Hchk HM Hc)
    as (out' & mean' & rstd' & Hrun' & Hm' & Hr' & Hout').
  exists (Some Y), (Some mean), (Some rstd). eexists.
  exists out', (Some mean'), (Some rstd'). eexists.
  split; [exact Hrun|]. split; [exact Hrun'|].
  cbn [sizes_of]. repeat split; try congruence.
  intros Hw Hb. rewrite (Hout' Hw Hb). exact HsY.
Qed.

Lemma forward_paths_agree_on_shapes_witness :
  exists Y mean rstd tr out' mean' rstd' tr',
    run (_layer_norm (K := ref_collaborators) (tensor [2; 3] true) [3]
           None None 0) = (Ok (Y, mean, rstd), tr) /\
    run (math_native_layer_norm (K := ref_collaborators)
           (tensor [2; 3] true) [3] None None 0) =
      (Ok (out', mean', rstd'), tr') /\
    sizes_of mean = sizes_of mean' /\
    sizes_of rstd = sizes_of rstd' /\
    (false = false -> false = false -> sizes_of Y = sizes_of out').
Proof.
  exact (forward_paths_agree_on_shapes ref_collaborators ref_contract
           ref_batch_norm_shapes
           (mkTensor [2; 3] true CPU (repeat (Bits 1) 6)) [3] None None 0 2 3
           eq_refl eq_refl eq_refl eq_refl).
Defined.

(** ** Validation errors across the entry points *)

(** Every orchestrator hands the error of the shape validation on
    unchanged, and none has invoked a kernel or allocated a result by then:
    the backward and the fallback path have done nothing at all, and the
    two forward variants have at most made the contiguity copy of the
    input; [layer_norm_new_out] leaves the caller's buffer unreturned. *)
Theorem validation_errors_propagate
    (K : Collaborators) (dY input : Tensor) (ns : list Z) (mean rstd : Tensor)
    (weight_opt bias_opt : option Tensor) (eps : double) (mask : grad_mask)
    (out : Tensor) (e : Error) :
  _check_layer_norm_inputs input ns
    (borrow_from_optional_tensor weight_opt)
    (borrow_from_optional_tensor bias_opt) = Raise e ->
  run (layer_norm_backward dY input ns mean rstd weight_opt bias_opt mask) =
    (Raise e, []) /\
  run (math_native_layer_norm input ns weight_opt bias_opt eps) =
    (Raise e, []) /\
  run (_layer_norm input ns weight_opt bias_opt eps) =
    (Raise e, copy_events input) /\
  run (layer_norm_new_out input ns weight_opt bias_opt eps out) =
    (Raise e, copy_events input).
Proof.
  intros Hchk.
  split; [unfold run, layer_norm_backward, bind, lift; now rewrite Hchk|].
  split; [unfold run, math_native_layer_norm, bind, lift; now rewrite Hchk|].
  split.
  - unfold run, _layer_norm, bind.
    rewrite (layer_init_rejects _ _ _ _ _ _ Hchk). reflexivity.
  - unfold run, layer_norm_new_out, bind.
    rewrite (layer_init_rejects _ _ _ _ _ _ Hchk). reflexivity.
Qed.

Lemma validation_errors_propagate_witness :
  run (layer_norm_backward (K := ref_collaborators)
         (tensor [2; 3] true) (tensor [2; 3] true) [3] None None
         (Some (tensor [4] true)) None (true, true, true)) =
    (Raise InvalidShape, []) /\
  run (math_native_layer_norm (K := ref_collaborators)
         (tensor [2; 3] true) [3] (Some (tensor [4] true)) None 0) =
    (Raise InvalidShape, []) /\
  run (_layer_norm (K := ref_collaborators)
         (tensor [2; 3] true) [3] (Some (tensor [4] true)) None 0) =
    (Raise InvalidShape, copy_events (tensor [2; 3] true)) /\
  run (layer_norm_new_out (K := ref_collaborators)
         (tensor [2; 3] true) [3] (Some (tensor [4] true)) None 0
         (tensor [2; 3] true)) =
    (Raise InvalidShape, copy_events (tensor [2; 3] true)).
Proof.
  exact (validation_errors_propagate ref_collaborators
           (tensor [2; 3] true) (tensor [2; 3] true) [3] None None
           (Some (tensor [4] true)) None 0 (true, true, true)
           (tensor [2; 3] true) InvalidShape eq_refl).
Defined.

(** ** C8: the two forward paths compute the same *)










(** The computing collaborators keep every contract. *)








